(** * brb: a Belief Rule-Base engine (src/brb/brb.py)

    A shallow embedding of the three classes of [brb.py] --
    [AttributeInput], [Rule] and [RuleBaseModel] -- together with the
    fragment of Python's dynamic semantics their method bodies rely on:
    assertions, dictionary lookup, the [in] operator, [max], true division,
    the [^] operator and [numpy.prod].

    Conventions.
    - A Python [dict] is an association list in insertion order; lookup
      returns the first binding of a key.
    - A weight is a Python number: an [int] of any size or a [float], the
      latter as the binary64 value of the standard library's [spec_float]
      (zeros, infinities, NaN included).  Comparison, true division and
      multiplication are Python's: exact comparison across the two kinds,
      quotients and products rounded to nearest-even, [OverflowError] for
      an integer no float can hold.
    - The values of the vocabulary and of the evidence ([pyval]) keep
      their floats by value, finite ones only.
    - A call either returns a value or raises: the [result] monad.  An
      exception carries what Python stores in it (the message of an
      [assert], the key of a [KeyError]).
    - Executing the module (its [import]s, [class] and [def] statements)
      is modelled apart from the method bodies: see [import_brb]. *)

From Stdlib Require Import List String Bool ZArith QArith Qreduction Lia.
From Stdlib Require Import Floats.SpecFloat.
Import ListNotations.

Local Open Scope string_scope.
Local Open Scope list_scope.
Local Open Scope Q_scope.

Set Warnings "-register-all".

(** ** Python values *)

Inductive pyval : Type :=
| PyNone
| PyBool (b : bool)
| PyInt (z : Z)
| PyFloat (q : Q)
| PyStr (s : string)
| PyTuple (items : list pyval)
| PyList (items : list pyval)
| PySet (items : list pyval).

(** ** Exceptions and the result monad *)

Inductive exn : Type :=
| AssertionError (msg : option pyval)
| KeyError (key : pyval)
| TypeError
| ZeroDivisionError
| ValueError
| OverflowError
| NameError (name : string).

Inductive result (T : Type) : Type :=
| Ok (v : T)
| Raise (e : exn).

Arguments Ok {T} v.
Arguments Raise {T} e.

Definition bind {T R : Type} (c : result T) (k : T -> result R) : result R :=
  match c with
  | Ok v => k v
  | Raise e => Raise e
  end.

Notation "x <- c ;; k" := (bind c (fun x => k))
  (at level 61, c at next level, right associativity).
Notation "c ;;; k" := (bind c (fun _ => k))
  (at level 61, right associativity).

(** [for x in xs: body(x)] where the body only checks. *)
Fixpoint for_each {T : Type} (body : T -> result unit) (xs : list T)
  : result unit :=
  match xs with
  | [] => Ok tt
  | x :: rest => body x ;;; for_each body rest
  end.

(** A list comprehension [[f(x) for x in xs]]: elements are evaluated left
    to right and the first exception escapes. *)
Fixpoint list_comp {T R : Type} (f : T -> result R) (xs : list T)
  : result (list R) :=
  match xs with
  | [] => Ok []
  | x :: rest => v <- f x ;; vs <- list_comp f rest ;; Ok (v :: vs)
  end.

(** [assert cond]: no message expression, so the exception has no argument. *)
Definition py_assert (cond : bool) : result unit :=
  if cond then Ok tt else Raise (AssertionError None).

(** ** Equality and membership *)

Definition bool_to_Z (b : bool) : Z := if b then 1%Z else 0%Z.

(** The numeric value of [bool], [int] and [float] objects. *)
Definition as_number (v : pyval) : option Q :=
  match v with
  | PyBool b => Some (inject_Z (bool_to_Z b))
  | PyInt z => Some (inject_Z z)
  | PyFloat q => Some q
  | _ => None
  end.

Definition num_eq (q : Q) (v : pyval) : bool :=
  match as_number v with
  | Some q' => Qeq_bool q q'
  | None => false
  end.

(** Python's [==].  Numbers compare by value across [bool], [int] and
    [float]; sequences element-wise and only with their own kind; sets by
    mutual inclusion. *)
Fixpoint py_eq (a b : pyval) {struct a} : bool :=
  match a with
  | PyNone => match b with PyNone => true | _ => false end
  | PyBool x => num_eq (inject_Z (bool_to_Z x)) b
  | PyInt x => num_eq (inject_Z x) b
  | PyFloat x => num_eq x b
  | PyStr s => match b with PyStr t => String.eqb s t | _ => false end
  | PyTuple xs =>
      match b with
      | PyTuple ys =>
          (fix items_eq (l : list pyval) (r : list pyval) : bool :=
             match l, r with
             | [], [] => true
             | x :: l', y :: r' => py_eq x y && items_eq l' r'
             | _, _ => false
             end) xs ys
      | _ => false
      end
  | PyList xs =>
      match b with
      | PyList ys =>
          (fix items_eq (l : list pyval) (r : list pyval) : bool :=
             match l, r with
             | [], [] => true
             | x :: l', y :: r' => py_eq x y && items_eq l' r'
             | _, _ => false
             end) xs ys
      | _ => false
      end
  | PySet xs =>
      match b with
      | PySet ys =>
          forallb (fun x => existsb (fun y => py_eq x y) ys) xs
          && forallb (fun y => existsb (fun x => py_eq x y) xs) ys
      | _ => false
      end
  end.

(** [x in xs] for a list [xs]. *)
Definition py_in (x : pyval) (xs : list pyval) : bool :=
  existsb (py_eq x) xs.

(** ** Dictionaries with [str] keys *)

Definition dict (V : Type) : Type := list (string * V).

Definition keys {V : Type} (d : dict V) : list string := map fst d.
Definition values {V : Type} (d : dict V) : list V := map snd d.

Fixpoint lookup {V : Type} (k : string) (d : dict V) : option V :=
  match d with
  | [] => None
  | (k', v) :: rest => if String.eqb k k' then Some v else lookup k rest
  end.

(** [d[k]] *)
Definition getitem {V : Type} (d : dict V) (k : string) : result V :=
  match lookup k d with
  | Some v => Ok v
  | None => Raise (KeyError (PyStr k))
  end.

(** [k in ks] for a collection of strings (a keys view or a set of str). *)
Definition str_in (k : string) (ks : list string) : bool :=
  existsb (String.eqb k) ks.

(** [s.intersection(t)] and [s == t] on sets of strings. *)
Definition set_intersection (s t : list string) : list string :=
  filter (fun k => str_in k t) s.

Definition set_eq (s t : list string) : bool :=
  forallb (fun k => str_in k t) s && forallb (fun k => str_in k s) t.

(** A keys view compared with an arbitrary object: a [dict_keys] is
    set-like, so it equals a set with the same elements and nothing else
    (in particular no [str]). *)
Definition dict_keys_eq (ks : list string) (v : pyval) : bool :=
  match v with
  | PySet ys =>
      forallb (fun k => existsb (fun y => py_eq (PyStr k) y) ys) ks
      && forallb (fun y => existsb (fun k => py_eq (PyStr k) y) ks) ys
  | _ => false
  end.

(** [d.keys() in xs] for a list [xs]. *)
Definition dict_keys_in (ks : list string) (xs : list pyval) : bool :=
  existsb (dict_keys_eq ks) xs.

(** ** Operators and builtins used by [brb.py] *)

(** *** Numbers

    A float is a [spec_float] read at precision 53 and maximal exponent
    1024. *)

Inductive pynum : Type :=
| NInt (z : Z)
| NFloat (f : spec_float).

(** The mathematical value of a number, on the extended line. *)
Inductive ext : Type :=
| ENaN
| ENegInf
| EFin (q : Q)
| EPosInf.

Definition float_value (f : spec_float) : ext :=
  match f with
  | S754_zero _ => EFin 0
  | S754_infinity s => if s then ENegInf else EPosInf
  | S754_nan => ENaN
  | S754_finite s m e =>
      EFin ((if s then - inject_Z (Zpos m) else inject_Z (Zpos m))
            * Qpower 2 e)
  end.

Definition num_value (a : pynum) : ext :=
  match a with
  | NInt z => EFin (inject_Z z)
  | NFloat f => float_value f
  end.

Definition ext_ltb (a b : ext) : bool :=
  match a, b with
  | ENaN, _ | _, ENaN => false
  | ENegInf, ENegInf => false
  | ENegInf, _ => true
  | _, ENegInf => false
  | EPosInf, _ => false
  | _, EPosInf => true
  | EFin p, EFin q => negb (Qle_bool q p)
  end.

(** [a > b]: by value, whatever the kinds; false as soon as one side is
    NaN. *)
Definition num_gt (a b : pynum) : bool := ext_ltb (num_value b) (num_value a).

(** [float(z)] as the arithmetic operators convert an [int] operand:
    rounded to nearest-even, [OverflowError] beyond the largest float. *)
Definition int_to_float (z : Z) : result spec_float :=
  match binary_normalize 53 1024 z 0 false with
  | S754_infinity _ => Raise OverflowError
  | f => Ok f
  end.

Definition as_float (a : pynum) : result spec_float :=
  match a with
  | NFloat f => Ok f
  | NInt z => int_to_float z
  end.

(** An integer as an exact operand of the correctly rounded integer
    division. *)
Definition int_exact (z : Z) : spec_float :=
  match z with
  | Z0 => S754_zero false
  | Zpos p => S754_finite false p 0
  | Zneg p => S754_finite true p 0
  end.

Definition is_zero_float (f : spec_float) : bool :=
  match f with
  | S754_zero _ => true
  | _ => false
  end.

(** [max(xs)]: the first element no later element is greater than; an empty
    argument raises [ValueError]. *)
Definition py_max (xs : list pynum) : result pynum :=
  match xs with
  | [] => Raise ValueError
  | x :: rest =>
      Ok (fold_left (fun m y => if num_gt y m then y else m) rest x)
  end.

(** [a / b], true division.  Two integers are divided exactly and the
    quotient is rounded once ([OverflowError] when it is beyond the largest
    float); otherwise both operands are taken as floats, left one first,
    before the divisor is tested for zero. *)
Definition py_truediv (a b : pynum) : result spec_float :=
  match a, b with
  | NInt x, NInt y =>
      if (y =? 0)%Z then Raise ZeroDivisionError
      else match SFdiv 53 1024 (int_exact x) (int_exact y) with
           | S754_infinity _ => Raise OverflowError
           | q => Ok q
           end
  | _, _ =>
      fa <- as_float a ;;
      fb <- as_float b ;;
      if is_zero_float fb then Raise ZeroDivisionError
      else Ok (SFdiv 53 1024 fa fb)
  end.


(** *** Operators on values *)

(** [a ^ b].  Python defines it for integers (bitwise exclusive or) and for
    sets (symmetric difference); every other pair of operand types is a
    [TypeError]. *)
Definition py_xor (a b : pyval) : result pyval :=
  match a, b with
  | PyBool x, PyBool y => Ok (PyBool (xorb x y))
  | PyBool x, PyInt y => Ok (PyInt (Z.lxor (bool_to_Z x) y))
  | PyInt x, PyBool y => Ok (PyInt (Z.lxor x (bool_to_Z y)))
  | PyInt x, PyInt y => Ok (PyInt (Z.lxor x y))
  | PySet xs, PySet ys =>
      Ok (PySet (filter (fun x => negb (py_in x ys)) xs
                 ++ filter (fun y => negb (py_in y xs)) ys))
  | _, _ => Raise TypeError
  end.

(** [a ^ w] for a float [w] produced by line 49.  A finite float is the
    [pyval] of its value; an infinite or NaN one is a float operand all the
    same. *)
Definition py_xor_with_float (a : pyval) (w : spec_float) : result pyval :=
  match float_value w with
  | EFin q => py_xor a (PyFloat q)
  | _ => Raise TypeError
  end.

(** [numpy.prod] of a flat list of numbers: [1.0] for the empty list, an
    integer for integers, a float as soon as one factor is a float, the
    products taken exactly (numpy's fixed-width arithmetic is not
    modelled).  Other elements are reported as [TypeError].  The one call
    site only ever passes the empty list (see [weighted_alpha_is_empty]). *)
Fixpoint np_prod_Z (xs : list pyval) : option Z :=
  match xs with
  | [] => Some 1%Z
  | PyBool b :: rest => option_map (Z.mul (bool_to_Z b)) (np_prod_Z rest)
  | PyInt z :: rest => option_map (Z.mul z) (np_prod_Z rest)
  | _ :: _ => None
  end.

Fixpoint np_prod_Q (xs : list pyval) : option Q :=
  match xs with
  | [] => Some 1
  | x :: rest =>
      match as_number x, np_prod_Q rest with
      | Some q, Some p => Some (Qred (q * p))
      | _, _ => None
      end
  end.

Definition np_prod (xs : list pyval) : result pyval :=
  match xs with
  | [] => Ok (PyFloat 1)
  | _ :: _ =>
      match np_prod_Z xs with
      | Some z => Ok (PyInt z)
      | None =>
          match np_prod_Q xs with
          | Some q => Ok (PyFloat q)
          | None => Raise TypeError
          end
      end
  end.

(** ** class AttributeInput *)

Module AttributeInput.

Record t : Type := Build { attr_input : dict pyval }.

(** The body of [__init__]: stores its argument.  Whether the class
    statement around it can be executed is the matter of [import_brb]. *)
Definition init (attr_input : dict pyval) : result t :=
  Ok (Build attr_input).

End AttributeInput.

(** ** class Rule *)

Module Rule.

Record t : Type := Build {
  A_values : dict pyval;
  delta : dict pynum;
  theta : pynum;
  beta : list (pyval * pyval)
}.

(** [__init__]: every key of [A_values] is asserted to be a key of
    [delta]; then the four fields are stored. *)
Definition init (A_values : dict pyval) (delta : dict pynum) (theta : pynum)
    (beta : list (pyval * pyval)) : result t :=
  for_each (fun U_i => py_assert (str_in U_i (keys delta))) (keys A_values) ;;;
  Ok (Build A_values delta theta beta).

Definition _assert_input (self : t) (X : AttributeInput.t) : result unit :=
  let rule_attributes := keys (A_values self) in
  let input_attributes := keys (AttributeInput.attr_input X) in
  py_assert
    (set_eq (set_intersection rule_attributes input_attributes)
            rule_attributes).

(** The dictionary comprehension of line 49:
    [{attr: d / max(self.delta.values()) for attr, d in self.delta.items()}]. *)
Definition norm_delta (self : t) : result (dict spec_float) :=
  list_comp
    (fun item : string * pynum =>
       let (attr, d) := item in
       m <- py_max (values (delta self)) ;;
       w <- py_truediv d m ;;
       Ok (attr, w))
    (delta self).

(** The list comprehension of line 50:
    [[X.attr_input[attr] ^ norm_delta[attr] for attr in self.A_values.keys()]]. *)
Definition weighted_alpha (self : t) (X : AttributeInput.t)
    (norm_delta : dict spec_float) : result (list pyval) :=
  list_comp
    (fun attr =>
       x <- getitem (AttributeInput.attr_input X) attr ;;
       w <- getitem norm_delta attr ;;
       py_xor_with_float x w)
    (keys (A_values self)).

Definition get_matching_degree (self : t) (X : AttributeInput.t)
  : result pyval :=
  _assert_input self X ;;;
  nd <- norm_delta self ;;
  wa <- weighted_alpha self X nd ;;
  np_prod wa.

End Rule.

(** ** class RuleBaseModel *)

Module RuleBaseModel.

Record t : Type := Build {
  U : list pyval;
  A : dict (list pyval);
  D : list pyval;
  F : pyval;
  rules : list Rule.t
}.

(** [__init__]: stores the vocabulary and starts with no rule. *)
Definition init (U : list pyval) (A : dict (list pyval)) (D : list pyval)
    (F : pyval) : result t :=
  Ok (Build U A D F []).

(** [add_rule]: three groups of assertions, then [self.rules.append]. The
    result is the model after the call. *)
Definition add_rule (self : t) (new_rule : Rule.t) : result t :=
  py_assert (dict_keys_in (keys (Rule.A_values new_rule)) (U self)) ;;;
  for_each
    (fun item : string * pyval =>
       let (U_i, A_i) := item in
       dom <- getitem (A self) U_i ;;
       py_assert (py_in A_i dom))
    (Rule.A_values new_rule) ;;;
  for_each (fun D_n => py_assert (py_in D_n (D self)))
    (map fst (Rule.beta new_rule)) ;;;
  Ok (Build (U self) (A self) (D self) (F self) (rules self ++ [new_rule])).

(** The loop of lines 109-110: every key of the input is asserted to be
    an element of [self.U]. *)
Definition check_input (self : t) (X : AttributeInput.t) : result unit :=
  for_each (fun U_i => py_assert (py_in (PyStr U_i) (U self)))
    (keys (AttributeInput.attr_input X)).

(** [run]: the input check, then the list of matching degrees.  The list
    is bound to a local name and the body ends there, so a call that does
    not raise returns [None]. *)
Definition run (self : t) (X : AttributeInput.t) : result pyval :=
  check_input self X ;;;
  alpha <- list_comp (fun rule => Rule.get_matching_degree rule X)
                     (rules self) ;;
  Ok PyNone.

End RuleBaseModel.

(** ** Executing the module

    Importing [brb.py] runs it from top to bottom.  Lines 1 and 3 bind
    the imported names; each [class] statement runs its body and then binds
    the class name; each [def] of a body evaluates the annotations of its
    parameters, and then of its result, at the moment it is executed (the
    file has no [from __future__ import annotations]; this is what CPython
    does up to version 3.13).  Evaluating a name looks it up in the class
    body, the module and the builtins, and raises [NameError] when it is
    found in none. *)

Inductive annotation : Type :=
| AName (name : string)
| ASubscript (base : annotation) (args : list annotation).

Record def_stmt : Type := Def {
  def_name : string;
  def_annotations : list annotation
}.

Record class_stmt : Type := Class {
  class_name : string;
  class_body : list def_stmt
}.

(** The builtins annotations can mention. *)
Definition builtin_names : list string :=
  ["bool"; "bytes"; "complex"; "dict"; "float"; "frozenset"; "int"; "list";
   "object"; "set"; "str"; "tuple"; "type"].

(** An annotation is an expression: the base of a subscript is evaluated
    before its arguments, the arguments from left to right. *)
Fixpoint eval_annotation (scope : list string) (a : annotation)
  : result unit :=
  match a with
  | AName name =>
      if str_in name scope then Ok tt else Raise (NameError name)
  | ASubscript base args =>
      eval_annotation scope base ;;;
      (fix eval_args (l : list annotation) : result unit :=
         match l with
         | [] => Ok tt
         | x :: rest => eval_annotation scope x ;;; eval_args rest
         end) args
  end.

Definition exec_def (scope : list string) (d : def_stmt) : result unit :=
  for_each (eval_annotation scope) (def_annotations d).

(** The body of a class: every [def] is executed in turn and binds its
    name in the class body. *)
Fixpoint exec_class_body (globals locals : list string) (body : list def_stmt)
  : result unit :=
  match body with
  | [] => Ok tt
  | d :: rest =>
      exec_def (locals ++ globals ++ builtin_names) d ;;;
      exec_class_body globals (def_name d :: locals) rest
  end.

(** The [class] statements of a module, in order; the result is the
    module's namespace. *)
Fixpoint exec_classes (globals : list string) (classes : list class_stmt)
  : result (list string) :=
  match classes with
  | [] => Ok globals
  | c :: rest =>
      exec_class_body globals [] (class_body c) ;;;
      exec_classes (class_name c :: globals) rest
  end.

(** [from typing import List, Dict, Any] and [import numpy as np]. *)
Definition brb_imports : list string := ["List"; "Dict"; "Any"; "np"].

Definition typing_Dict (k v : annotation) : annotation :=
  ASubscript (AName "Dict") [k; v].
Definition typing_List (x : annotation) : annotation :=
  ASubscript (AName "List") [x].

(** The classes of [brb.py] with the annotations of their methods. *)
Definition brb_classes : list class_stmt :=
  [ Class "AttributeInput"
      [ Def "__init__"
          [ typing_Dict (AName "str")
              (ASubscript (AName "Tuple") [AName "Any"; AName "float"]) ] ];
    Class "Rule"
      [ Def "__init__"
          [ typing_Dict (AName "str") (AName "Any");
            typing_Dict (AName "str") (AName "float");
            AName "float";
            typing_Dict (AName "Any") (AName "Any") ];
        Def "get_matching_degree" [ AName "AttributeInput"; AName "float" ];
        Def "_assert_input" [ AName "AttributeInput" ] ];
    Class "RuleBaseModel"
      [ Def "__init__"
          [ typing_List (AName "str");
            typing_Dict (AName "str") (typing_List (AName "Any"));
            typing_List (AName "Any") ];
        Def "add_rule" [ AName "Rule" ];
        Def "run" [ AName "AttributeInput" ] ] ].

(** [import brb] *)
Definition import_brb : result (list string) :=
  exec_classes brb_imports brb_classes.

(** ** Vocabulary of the statements *)

(** The arguments an exception was raised with, as far as the model
    records them: the message of an [assert], the key of a [KeyError]. *)
Definition exn_args (e : exn) : list pyval :=
  match e with
  | AssertionError (Some msg) => [msg]
  | AssertionError None => []
  | KeyError key => [key]
  | NameError name => [PyStr ("name '" ++ name ++ "' is not defined")]
  | TypeError | ZeroDivisionError | ValueError | OverflowError => []
  end.

(** The rule needs an attribute the input has no entry for. *)
Definition missing_evidence (r : Rule.t) (X : AttributeInput.t) : bool :=
  negb (forallb (fun k => str_in k (keys (AttributeInput.attr_input X)))
                (keys (Rule.A_values r))).

(** Invariants I1-I4 of a rule with respect to a model's vocabulary. *)
Definition satisfies_I1 (m : RuleBaseModel.t) (r : Rule.t) : bool :=
  forallb (fun k => py_in (PyStr k) (RuleBaseModel.U m))
          (keys (Rule.A_values r) ++ keys (Rule.delta r)).

Definition satisfies_I2 (m : RuleBaseModel.t) (r : Rule.t) : bool :=
  forallb (fun item : string * pyval =>
             match lookup (fst item) (RuleBaseModel.A m) with
             | Some dom => py_in (snd item) dom
             | None => false
             end)
          (Rule.A_values r).

Definition satisfies_I3 (m : RuleBaseModel.t) (r : Rule.t) : bool :=
  forallb (fun d => py_in d (RuleBaseModel.D m)) (map fst (Rule.beta r)).

Definition satisfies_I4 (r : Rule.t) : bool :=
  forallb (fun k => str_in k (keys (Rule.delta r))) (keys (Rule.A_values r)).

Definition is_str (v : pyval) : bool :=
  match v with PyStr _ => true | _ => false end.


(** The rule with another weights mapping. *)
Definition with_delta (d : dict pynum) (r : Rule.t) : Rule.t :=
  Rule.Build (Rule.A_values r) d (Rule.theta r) (Rule.beta r).

(** The rule without the weight entry of attribute [k]. *)
Definition without_weight (k : string) (r : Rule.t) : Rule.t :=
  with_delta (filter (fun item : string * pynum =>
                        negb (String.eqb k (fst item)))
                     (Rule.delta r)) r.

(** The float 1.0. *)
Definition float_one : spec_float := S754_finite false 4503599627370496 (-52).

Definition is_nan (a : pynum) : bool :=
  match num_value a with
  | ENaN => true
  | _ => false
  end.



Definition is_float (a : pynum) : bool :=
  match a with
  | NFloat _ => true
  | NInt _ => false
  end.

(** ** Running example: the scenario of the specification

    Attributes [{temp: [low, high]}], consequents [{ok, fail}], one rule
    with antecedent [temp = high], weight [1], rule weight [1] and
    consequent belief [{fail: 0.9}]; the input assigns belief [1.0] to
    [high]. *)
Module Scenario.

Definition A : dict (list pyval) := [("temp", [PyStr "low"; PyStr "high"])].
Definition D : list pyval := [PyStr "ok"; PyStr "fail"].

Definition model : RuleBaseModel.t :=
  RuleBaseModel.Build [PyStr "temp"] A D PyNone [].

Definition R1 : Rule.t :=
  Rule.Build [("temp", PyStr "high")] [("temp", NInt 1)] (NInt 1)
             [(PyStr "fail", PyFloat (9 # 10))].


(** Evidence as the annotation has it (one pair), as the specification
    has it (a list of pairs), and as a bare belief degree. *)
Definition X_pair : AttributeInput.t :=
  AttributeInput.Build [("temp", PyTuple [PyStr "high"; PyFloat 1])].
Definition X_list : AttributeInput.t :=
  AttributeInput.Build [("temp", PyList [PyTuple [PyStr "high"; PyFloat 1]])].
Definition X_degree : AttributeInput.t :=
  AttributeInput.Build [("temp", PyFloat 1)].

Definition X_empty : AttributeInput.t := AttributeInput.Build [].
Definition X_pressure : AttributeInput.t :=
  AttributeInput.Build [("pressure", PyTuple [PyStr "high"; PyFloat 1])].
(** A belief degree of 2, outside [0,1]. *)
Definition X_overfull : AttributeInput.t :=
  AttributeInput.Build [("temp", PyTuple [PyStr "high"; PyFloat 2])].

(** The model, its rule list holding [R1]. *)
Definition model_with_R1 : RuleBaseModel.t :=
  RuleBaseModel.Build [PyStr "temp"] A D PyNone [R1].

(** A model whose [U] holds, next to the attribute name, a set object:
    the only kind of element a keys view compares equal to. *)
Definition model_set_in_U : RuleBaseModel.t :=
  RuleBaseModel.Build [PyStr "temp"; PySet [PyStr "temp"]] A D PyNone [].

(** A rule with a weight for an attribute that is not an antecedent. *)
Definition R_extra : Rule.t :=
  Rule.Build [("a", PyStr "x")] [("a", NInt 1); ("b", NInt 2)] (NInt 1) [].
Definition X_a : AttributeInput.t :=
  AttributeInput.Build [("a", PyTuple [PyStr "x"; PyFloat (1 # 2)])].

(** A rule without antecedents and one weight. *)
Definition R_no_antecedent : Rule.t :=
  Rule.Build [] [("b", NInt 2)] (NInt 1) [].

End Scenario.

(** ** Calling [add_rule] repeatedly

    [for r in rs: model.add_rule(r)]: the rules are offered in order and
    the first exception ends the loop. *)
Fixpoint add_rules (m : RuleBaseModel.t) (rs : list Rule.t)
  : result RuleBaseModel.t :=
  match rs with
  | [] => Ok m
  | r :: rest => m' <- RuleBaseModel.add_rule m r ;; add_rules m' rest
  end.

(** Further inputs used to exercise the statements. *)
Module Examples.

(** A model whose [U] lets the first assertion of [add_rule] pass but
    whose [A] declares no domain at all. *)
Definition model_no_domain : RuleBaseModel.t :=
  RuleBaseModel.Build [PySet [PyStr "temp"]] [] Scenario.D PyNone [].

(** Two antecedent-free rules, with and without weights. *)
Definition R_plain : Rule.t :=
  Rule.Build [] [] (NInt 1) [(PyStr "ok", PyFloat 1)].
Definition R_weighted : Rule.t :=
  Rule.Build [] [("temp", NFloat (S754_finite false 4503599627370496 (-53)));
                 ("load", NFloat (S754_finite false 4503599627370496 (-51)))]
             (NInt 1) [].

Definition model_plain : RuleBaseModel.t :=
  RuleBaseModel.Build [PyStr "temp"] Scenario.A Scenario.D PyNone
                      [R_plain; R_weighted].

(** The scenario's rule after its consequent belief is changed. *)
Definition R1_ok : Rule.t :=
  Rule.Build [("temp", PyStr "high")] [("temp", NInt 1)] (NInt 1)
             [(PyStr "ok", PyFloat (1 # 2))].

(** Floats written out: 0.5, 3.0, 0.7, 1/3 as Python prints it
    (0.3333333333333333), its successor (0.33333333333333337), 1e-10 and
    the subnormal 1e-320. *)
Definition f_half : spec_float := S754_finite false 4503599627370496 (-53).
Definition f_three : spec_float := S754_finite false 6755399441055744 (-51).

(** Weights [{'a': 1.0, 'b': 3.0}] and [{'a': 1e-10}], float weights
    throughout. *)
Definition R_floats : Rule.t :=
  Rule.Build [("a", PyStr "x")]
             [("a", NFloat float_one); ("b", NFloat f_three)] (NInt 1) [].


(** Integer weights [{'a': 2**60, 'b': 2**60 + 1}]. *)
Definition R_close : Rule.t :=
  Rule.Build [("a", PyStr "x")]
             [("a", NInt (2 ^ 60)); ("b", NInt (2 ^ 60 + 1))] (NInt 1) [].

(** Weights [{'a': 10**400, 'b': 0.5}], no antecedent. *)
Definition R_huge : Rule.t :=
  Rule.Build [] [("a", NInt (10 ^ 400)); ("b", NFloat f_half)] (NInt 1) [].


End Examples.

(** * Properties *)

(** ** The result monad and the loops *)

Section Loops.

Context {T : Type}.

Lemma for_each_assert (p : T -> bool) (xs : list T) :
  for_each (fun x => py_assert (p x)) xs = py_assert (forallb p xs).
Proof.
  induction xs as [|x rest IH]; simpl.
  - reflexivity.
  - unfold py_assert at 1. destruct (p x); simpl.
    + exact IH.
    + reflexivity.
Qed.

Lemma py_assert_Ok (b : bool) : py_assert b = Ok tt <-> b = true.
Proof. destruct b; simpl; split; intro H; congruence. Qed.

Lemma list_comp_app {R : Type} (f : T -> result R) (pre post : list T) :
  list_comp f (pre ++ post) =
  (vs <- list_comp f pre ;; ws <- list_comp f post ;; Ok (vs ++ ws)).
Proof.
  induction pre as [|x pre IH]; simpl.
  - destruct (list_comp f post); reflexivity.
  - destruct (f x) as [v|e]; simpl; [|reflexivity].
    rewrite IH. destruct (list_comp f pre); simpl; [|reflexivity].
    destruct (list_comp f post); reflexivity.
Qed.

Lemma list_comp_all_Ok {R : Type} (f : T -> result R) (xs : list T) :
  (forall x, In x xs -> exists v, f x = Ok v) ->
  exists vs, list_comp f xs = Ok vs.
Proof.
  induction xs as [|x rest IH]; intros Hall; simpl.
  - now exists [].
  - destruct (Hall x (or_introl eq_refl)) as [v ->].
    destruct IH as [vs ->]; [intros y Hy; apply Hall; now right|].
    simpl. now exists (v :: vs).
Qed.

(** The first element whose evaluation raises decides the outcome. *)
Lemma list_comp_first_failure {R : Type} (f : T -> result R)
    (pre post : list T) (x : T) (e : exn) :
  (forall y, In y pre -> exists v, f y = Ok v) ->
  f x = Raise e ->
  list_comp f (pre ++ x :: post) = Raise e.
Proof.
  intros Hpre Hx. rewrite list_comp_app.
  destruct (list_comp_all_Ok f pre Hpre) as [vs ->]. simpl.
  now rewrite Hx.
Qed.

(** A comprehension that raises has a first element that raises. *)
Lemma list_comp_Raise_inv {R : Type} (f : T -> result R) (xs : list T)
    (e : exn) :
  list_comp f xs = Raise e ->
  exists pre x post,
    xs = pre ++ x :: post
    /\ (forall y, In y pre -> exists v, f y = Ok v)
    /\ f x = Raise e.
Proof.
  induction xs as [|x rest IH]; simpl; intro H; [discriminate|].
  destruct (f x) as [v|e'] eqn:Hfx; simpl in H.
  - destruct (list_comp f rest) as [vs|e''] eqn:Hrest; simpl in H;
      [discriminate|].
    injection H as ->.
    destruct (IH eq_refl) as (pre & y & post & -> & Hpre & Hy).
    exists (x :: pre), y, post. repeat split; auto.
    intros z [<-|Hz]; [now exists v|now apply Hpre].
  - injection H as ->. exists [], x, rest. repeat split; auto.
    intros y [].
Qed.

End Loops.

Lemma list_comp_Ok_all {T R : Type} (f : T -> result R) (xs : list T)
    (vs : list R) :
  list_comp f xs = Ok vs -> forall x, In x xs -> exists v, f x = Ok v.
Proof.
  revert vs. induction xs as [|y rest IH]; simpl; intros vs H x Hx.
  - destruct Hx.
  - destruct (f y) as [v|] eqn:Hy; simpl in H; [|discriminate].
    destruct (list_comp f rest) as [ws|] eqn:Hrest; simpl in H; [|discriminate].
    destruct Hx as [<-|Hx]; [now exists v|]. now apply (IH ws).
Qed.

Lemma list_comp_ext {T R : Type} (f g : T -> result R) (xs : list T) :
  (forall x, In x xs -> f x = g x) -> list_comp f xs = list_comp g xs.
Proof.
  induction xs as [|y rest IH]; simpl; intro H; [reflexivity|].
  rewrite (H y (or_introl eq_refl)), IH; [reflexivity|].
  intros x Hx. apply H. now right.
Qed.

Lemma lookup_In_keys {V : Type} (k : string) (d : dict V) :
  In k (keys d) <-> exists v, lookup k d = Some v.
Proof.
  induction d as [|[k' v'] rest IH]; simpl.
  - split; [intros []|intros [v H]; discriminate].
  - destruct (String.eqb k k') eqn:E.
    + apply String.eqb_eq in E. subst. split; [now exists v'|now left].
    + apply String.eqb_neq in E. rewrite <- IH. split.
      * intros [H|H]; [congruence|exact H].
      * intro H. now right.
Qed.



Lemma for_each_Ok {T : Type} (body : T -> result unit) (xs : list T) :
  for_each body xs = Ok tt <-> forall x, In x xs -> body x = Ok tt.
Proof.
  induction xs as [|y rest IH]; simpl.
  - split; [intros _ x []|reflexivity].
  - destruct (body y) as [[]|e] eqn:Hy; simpl.
    + rewrite IH. split.
      * intros H x [<-|Hx]; [exact Hy|now apply H].
      * intros H x Hx. apply H. now right.
    + split; [discriminate|].
      intro H. specialize (H y (or_introl eq_refl)). congruence.
Qed.

Lemma for_each_first_failure {T : Type} (body : T -> result unit)
    (pre post : list T) (x : T) (e : exn) :
  (forall y, In y pre -> body y = Ok tt) ->
  body x = Raise e ->
  for_each body (pre ++ x :: post) = Raise e.
Proof.
  intros Hpre Hx. induction pre as [|y pre IH]; simpl.
  - now rewrite Hx.
  - rewrite (Hpre y (or_introl eq_refl)). simpl.
    apply IH. intros z Hz. apply Hpre. now right.
Qed.

Lemma for_each_Raise_inv {T : Type} (body : T -> result unit) (xs : list T)
    (e : exn) :
  for_each body xs = Raise e -> exists x, In x xs /\ body x = Raise e.
Proof.
  induction xs as [|y rest IH]; simpl; intro H; [discriminate|].
  destruct (body y) as [[]|e'] eqn:Hy; simpl in H.
  - destruct (IH H) as (x & Hx & Hb). exists x. split; [now right|exact Hb].
  - injection H as ->. exists y. split; [now left|exact Hy].
Qed.

(** ** Membership *)

Lemma str_in_In (k : string) (ks : list string) :
  str_in k ks = true <-> In k ks.
Proof.
  unfold str_in. rewrite existsb_exists. split.
  - intros (x & Hx & Heq). apply String.eqb_eq in Heq. now subst.
  - intro H. exists k. split; [exact H|apply String.eqb_refl].
Qed.

Lemma py_eq_str (s : string) (v : pyval) :
  py_eq (PyStr s) v = true <-> v = PyStr s.
Proof.
  destruct v; simpl; split; intro H; try discriminate.
  - apply String.eqb_eq in H. now subst.
  - injection H as ->. apply String.eqb_refl.
Qed.

Lemma py_in_str (s : string) (xs : list pyval) :
  py_in (PyStr s) xs = true <-> In (PyStr s) xs.
Proof.
  unfold py_in. rewrite existsb_exists. split.
  - intros (v & Hv & Heq). apply py_eq_str in Heq. now subst.
  - intro H. exists (PyStr s). split; [exact H|now apply py_eq_str].
Qed.

(** A keys view is equal to no string, so it is an element of no list of
    strings. *)
Lemma dict_keys_in_strings (ks : list string) (xs : list pyval) :
  forallb is_str xs = true -> dict_keys_in ks xs = false.
Proof.
  unfold dict_keys_in. induction xs as [|v rest IH]; simpl; intro H.
  - reflexivity.
  - apply andb_true_iff in H as [Hv Hrest].
    destruct v; try discriminate. simpl. now apply IH.
Qed.

(** ** Numbers: order, [max], true division *)

Definition max_step (m y : pynum) : pynum := if num_gt y m then y else m.

Lemma py_max_cons (x : pynum) (rest : list pynum) :
  py_max (x :: rest) = Ok (fold_left max_step rest x).
Proof. reflexivity. Qed.

Lemma py_max_nonempty (xs : list pynum) :
  xs <> [] -> exists M, py_max xs = Ok M.
Proof. destruct xs; [congruence|]. intros _. eexists. reflexivity. Qed.

Lemma Qle_bool_false (x y : Q) : Qle_bool x y = false <-> y < x.
Proof.
  split; intro H.
  - apply Qnot_le_lt. intro Hle. apply Qle_bool_iff in Hle. congruence.
  - destruct (Qle_bool x y) eqn:E; [|reflexivity].
    apply Qle_bool_iff in E. now apply Qlt_not_le in H.
Qed.

Lemma ext_ltb_irrefl (a : ext) : ext_ltb a a = false.
Proof.
  destruct a; simpl; try reflexivity.
  apply negb_false_iff, Qle_bool_iff, Qle_refl.
Qed.

Lemma ext_ltb_trans (a b c : ext) :
  ext_ltb a b = true -> ext_ltb b c = true -> ext_ltb a c = true.
Proof.
  destruct a, b, c; simpl; try discriminate; try reflexivity.
  rewrite !negb_true_iff, !Qle_bool_false. apply Qlt_trans.
Qed.

(** Among numbers, "not greater" is transitive through a middle term that
    is not NaN. *)
Lemma ext_not_ltb_trans (a b c : ext) :
  b <> ENaN ->
  ext_ltb a b = false -> ext_ltb b c = false -> ext_ltb a c = false.
Proof.
  destruct a, b, c; simpl; try discriminate; try reflexivity; try congruence.
  intros _. rewrite !negb_false_iff, !Qle_bool_iff. intros H1 H2.
  eapply Qle_trans; eauto.
Qed.

Lemma ext_ltb_le_trans (a b c : ext) :
  c <> ENaN ->
  ext_ltb a b = true -> ext_ltb c b = false -> ext_ltb a c = true.
Proof.
  destruct a, b, c; simpl; try discriminate; try reflexivity; try congruence.
  intros _. rewrite negb_true_iff, negb_false_iff, Qle_bool_false, Qle_bool_iff.
  intros H1 H2. apply negb_true_iff, Qle_bool_false.
  eapply Qlt_le_trans; eauto.
Qed.

Lemma is_nan_value (a : pynum) : is_nan a = false <-> num_value a <> ENaN.
Proof.
  unfold is_nan. destruct (num_value a); split; congruence.
Qed.

Lemma num_gt_nan_r (a b : pynum) : is_nan b = true -> num_gt a b = false.
Proof.
  unfold is_nan, num_gt. destruct (num_value b); try discriminate.
  reflexivity.
Qed.

Lemma fold_max_In (rest : list pynum) :
  forall x, In (fold_left max_step rest x) (x :: rest).
Proof.
  induction rest as [|z rest IH]; intro x; simpl.
  - now left.
  - destruct (IH (max_step x z)) as [H|H].
    + unfold max_step in H at 1. destruct (num_gt z x).
      * right. left. exact H.
      * left. exact H.
    + right. right. exact H.
Qed.

Lemma fold_max_nan (rest : list pynum) (x : pynum) :
  is_nan x = true -> fold_left max_step rest x = x.
Proof.
  intro Hx. induction rest as [|z rest IH]; simpl; [reflexivity|].
  unfold max_step at 2. now rewrite (num_gt_nan_r z x Hx).
Qed.

Lemma fold_max_ub (rest : list pynum) :
  forall x, num_gt x (fold_left max_step rest x) = false
            /\ forall y, In y rest -> num_gt y (fold_left max_step rest x) = false.
Proof.
  induction rest as [|z rest IH]; intro x; simpl.
  - split; [apply ext_ltb_irrefl|intros y []].
  - destruct (IH (max_step x z)) as [H1 H2].
    set (F := fold_left max_step rest (max_step x z)) in *.
    assert (Hxz : num_gt x F = false /\ num_gt z F = false).
    { unfold max_step in H1. destruct (num_gt z x) eqn:E.
      - split; [|exact H1].
        destruct (num_gt x F) eqn:Ex; [|reflexivity].
        unfold num_gt in *.
        now rewrite (ext_ltb_trans _ _ _ Ex E) in H1.
      - split; [exact H1|].
        destruct (is_nan x) eqn:Hx.
        + subst F. unfold max_step at 2. rewrite E.
          rewrite (fold_max_nan rest x Hx). now apply num_gt_nan_r.
        + apply is_nan_value in Hx. unfold num_gt in *.
          exact (ext_not_ltb_trans _ _ _ Hx H1 E). }
    destruct Hxz as [Hx Hz]. split; [exact Hx|].
    intros y [<-|Hy]; [exact Hz|now apply H2].
Qed.

(** [max] returns an element of its argument that no element is greater
    than. *)
Lemma py_max_spec (xs : list pynum) (M : pynum) :
  py_max xs = Ok M -> In M xs /\ forall x, In x xs -> num_gt x M = false.
Proof.
  destruct xs as [|x rest]; simpl; intro H; [discriminate|].
  injection H as <-. split.
  - apply fold_max_In.
  - destruct (fold_max_ub rest x) as [H1 H2].
    intros y [<-|Hy]; [exact H1|now apply H2].
Qed.





Lemma py_truediv_floats (f g : spec_float) :
  py_truediv (NFloat f) (NFloat g) =
  if is_zero_float g then Raise ZeroDivisionError else Ok (SFdiv 53 1024 f g).
Proof. reflexivity. Qed.

Lemma int_to_float_Raise (z : Z) (e : exn) :
  int_to_float z = Raise e -> e = OverflowError.
Proof.
  unfold int_to_float. destruct (binary_normalize 53 1024 z 0 false);
    intro H; try discriminate. now injection H as <-.
Qed.

Lemma as_float_Raise (a : pynum) (e : exn) :
  as_float a = Raise e -> e = OverflowError.
Proof. destruct a; simpl; [apply int_to_float_Raise|discriminate]. Qed.

(** True division fails in two ways only. *)
Lemma py_truediv_Raise (a b : pynum) (e : exn) :
  py_truediv a b = Raise e -> e = ZeroDivisionError \/ e = OverflowError.
Proof.
  assert (Hmixed : forall a b,
             (fa <- as_float a ;; fb <- as_float b ;;
              if is_zero_float fb then Raise ZeroDivisionError
              else Ok (SFdiv 53 1024 fa fb)) = Raise e ->
             e = ZeroDivisionError \/ e = OverflowError).
  { intros a' b' H.
    destruct (as_float a') as [fa|e1] eqn:Ea; simpl in H.
    - destruct (as_float b') as [fb|e2] eqn:Eb; simpl in H.
      + destruct (is_zero_float fb); [|discriminate].
        injection H as <-. now left.
      + injection H as <-. right. now apply (as_float_Raise b').
    - injection H as <-. right. now apply (as_float_Raise a'). }
  destruct a as [x|f], b as [y|g]; try apply Hmixed.
  simpl. destruct (y =? 0)%Z.
  - intro H. injection H as <-. now left.
  - destruct (SFdiv 53 1024 (int_exact x) (int_exact y)); intro H;
      try discriminate. injection H as <-. now right.
Qed.

(** ** Dictionaries *)

Lemma lookup_In {V : Type} (k : string) (v : V) (d : dict V) :
  lookup k d = Some v -> In (k, v) d.
Proof.
  induction d as [|[k' v'] rest IH]; simpl; [discriminate|].
  destruct (String.eqb k k') eqn:E.
  - apply String.eqb_eq in E. intro H. injection H as ->. subst. now left.
  - intro H. right. now apply IH.
Qed.

Lemma In_values {V : Type} (v : V) (d : dict V) :
  In v (values d) <-> exists k, In (k, v) d.
Proof.
  unfold values. rewrite in_map_iff. split.
  - intros ([k v'] & E & H). simpl in E. subst. now exists k.
  - intros (k & H). now exists (k, v).
Qed.

(** Line 49 once [max] has returned [M]: every weight divided by [M], in
    the order of the mapping. *)
Definition divide_all (M : pynum) (d : dict pynum) : result (dict spec_float) :=
  list_comp (fun item : string * pynum =>
               w <- py_truediv (snd item) M ;; Ok (fst item, w)) d.

Lemma divide_all_keys (M : pynum) (d : dict pynum) :
  forall nd, divide_all M d = Ok nd -> keys nd = keys d.
Proof.
  unfold divide_all. induction d as [|[k w] rest IH]; simpl; intros nd H.
  - now injection H as <-.
  - destruct (py_truediv w M); simpl in H; [|discriminate].
    destruct (list_comp _ rest) as [nr|] eqn:E; simpl in H; [|discriminate].
    injection H as <-. simpl. f_equal. now apply IH.
Qed.

Lemma divide_all_lookup (M : pynum) (d : dict pynum) (k : string) (w : pynum) :
  forall nd, divide_all M d = Ok nd ->
             lookup k d = Some w ->
             exists q, py_truediv w M = Ok q /\ lookup k nd = Some q.
Proof.
  unfold divide_all. induction d as [|[k' w'] rest IH]; simpl; intros nd H Hk.
  - discriminate.
  - destruct (py_truediv w' M) as [q'|] eqn:Eq; simpl in H; [|discriminate].
    destruct (list_comp _ rest) as [nr|] eqn:E; simpl in H; [|discriminate].
    injection H as <-. simpl. destruct (String.eqb k k').
    + injection Hk as <-. now exists q'.
    + now apply IH.
Qed.

Lemma divide_all_Raise (M : pynum) (d : dict pynum) (e : exn) :
  divide_all M d = Raise e ->
  exists k w, In (k, w) d /\ py_truediv w M = Raise e.
Proof.
  unfold divide_all. intro H.
  apply list_comp_Raise_inv in H as (pre & [k w] & post & -> & _ & Hx).
  exists k, w. split; [apply in_or_app; right; now left|].
  simpl in Hx. destruct (py_truediv w M); simpl in Hx; [discriminate|].
  now injection Hx as <-.
Qed.

Lemma divide_all_Ok (M : pynum) (d : dict pynum) :
  (forall k w, In (k, w) d -> exists q, py_truediv w M = Ok q) ->
  exists nd, divide_all M d = Ok nd.
Proof.
  intro H. apply list_comp_all_Ok. intros [k w] Hin.
  destruct (H k w Hin) as [q Hq]. simpl. rewrite Hq. simpl. eauto.
Qed.

(** ** class Rule *)

Section RuleFacts.

Variable r : Rule.t.

Lemma set_eq_intersection (s t : list string) :
  set_eq (set_intersection s t) s = forallb (fun k => str_in k t) s.
Proof.
  unfold set_eq, set_intersection. apply eq_true_iff_eq.
  rewrite andb_true_iff, !forallb_forall. split.
  - intros [_ H] k Hk. specialize (H k Hk).
    apply str_in_In, filter_In in H. tauto.
  - intro H. split; intros k Hk.
    + apply filter_In in Hk. now apply str_in_In.
    + apply str_in_In, filter_In. auto.
Qed.

Lemma assert_input_spec (X : AttributeInput.t) :
  Rule._assert_input r X = py_assert (negb (missing_evidence r X)).
Proof.
  unfold Rule._assert_input, missing_evidence.
  now rewrite set_eq_intersection, negb_involutive.
Qed.

Lemma init_spec (A_values : dict pyval) (delta : dict pynum) (theta : pynum)
    (beta : list (pyval * pyval)) :
  Rule.init A_values delta theta beta =
  if forallb (fun k => str_in k (keys delta)) (keys A_values)
  then Ok (Rule.Build A_values delta theta beta)
  else Raise (AssertionError None).
Proof.
  unfold Rule.init. rewrite for_each_assert.
  now destruct (forallb _ _).
Qed.

(** The right operand of [^] on line 50 is a quotient, hence a float. *)
Lemma py_xor_float (a : pyval) (w : Q) : py_xor a (PyFloat w) = Raise TypeError.
Proof. destruct a; reflexivity. Qed.

Lemma py_xor_with_float_raises (a : pyval) (w : spec_float) :
  py_xor_with_float a w = Raise TypeError.
Proof.
  unfold py_xor_with_float. destruct (float_value w); try reflexivity.
  apply py_xor_float.
Qed.

(** The list of line 50 can only be built when there is nothing to build. *)
Lemma weighted_alpha_is_empty (X : AttributeInput.t) (nd : dict spec_float)
    (wa : list pyval) :
  Rule.weighted_alpha r X nd = Ok wa -> Rule.A_values r = [] /\ wa = [].
Proof.
  unfold Rule.weighted_alpha.
  destruct (Rule.A_values r) as [|[k v] rest]; simpl; intro H.
  - injection H as <-. auto.
  - destruct (getitem (AttributeInput.attr_input X) k); simpl in H;
      [|discriminate].
    destruct (getitem nd k); simpl in H; [|discriminate].
    rewrite py_xor_with_float_raises in H. discriminate.
Qed.

Lemma get_matching_degree_Ok_inv (X : AttributeInput.t) (v : pyval) :
  Rule.get_matching_degree r X = Ok v ->
  Rule.A_values r = [] /\ v = PyFloat 1.
Proof.
  unfold Rule.get_matching_degree. intro H.
  destruct (Rule._assert_input r X); simpl in H; [|discriminate].
  destruct (Rule.norm_delta r) as [nd|]; simpl in H; [|discriminate].
  destruct (Rule.weighted_alpha r X nd) as [wa|] eqn:Hwa; simpl in H;
    [|discriminate].
  apply weighted_alpha_is_empty in Hwa as [HA ->]. simpl in H.
  injection H as <-. auto.
Qed.

(** A rule with an antecedent has no matching degree: the call raises. *)
Lemma get_matching_degree_raises (X : AttributeInput.t) :
  Rule.A_values r <> [] ->
  exists e, Rule.get_matching_degree r X = Raise e.
Proof.
  intro HA. destruct (Rule.get_matching_degree r X) as [v|e] eqn:H.
  - apply get_matching_degree_Ok_inv in H as [H _]. contradiction.
  - now exists e.
Qed.

Lemma missing_evidence_raises (X : AttributeInput.t) :
  missing_evidence r X = true ->
  Rule.get_matching_degree r X = Raise (AssertionError None).
Proof.
  intro H. unfold Rule.get_matching_degree.
  now rewrite assert_input_spec, H.
Qed.

(** Line 49 in closed form: nothing happens for an empty weights
    mapping; otherwise every weight is divided by what [max] returns for
    the whole mapping. *)
Lemma norm_delta_spec :
  Rule.norm_delta r =
  match py_max (values (Rule.delta r)) with
  | Raise _ => Ok []
  | Ok M => divide_all M (Rule.delta r)
  end.
Proof.
  unfold Rule.norm_delta, divide_all.
  destruct (Rule.delta r) as [|[k0 d0] rest] eqn:Hd; [reflexivity|].
  change (values ((k0, d0) :: rest)) with (d0 :: values rest).
  rewrite py_max_cons. apply list_comp_ext. now intros [k d] _.
Qed.

Lemma norm_delta_keys (nd : dict spec_float) :
  Rule.norm_delta r = Ok nd -> keys nd = keys (Rule.delta r).
Proof.
  rewrite norm_delta_spec.
  destruct (py_max (values (Rule.delta r))) as [M|] eqn:HM.
  - apply divide_all_keys.
  - intro H. injection H as <-.
    destruct (Rule.delta r); [reflexivity|discriminate].
Qed.

Lemma norm_delta_Raise (e : exn) :
  Rule.norm_delta r = Raise e ->
  (e = ZeroDivisionError \/ e = OverflowError)
  /\ exists M k w, py_max (values (Rule.delta r)) = Ok M
                   /\ In (k, w) (Rule.delta r)
                   /\ py_truediv w M = Raise e.
Proof.
  rewrite norm_delta_spec.
  destruct (py_max (values (Rule.delta r))) as [M|]; [|discriminate].
  intro H. apply divide_all_Raise in H as (k & w & Hin & Hq). split.
  - exact (py_truediv_Raise w M e Hq).
  - now exists M, k, w.
Qed.

Lemma missing_evidence_false (X : AttributeInput.t) :
  missing_evidence r X = false <->
  forall k, In k (keys (Rule.A_values r)) ->
            In k (keys (AttributeInput.attr_input X)).
Proof.
  unfold missing_evidence. rewrite negb_false_iff, forallb_forall.
  split; intros H k Hk; apply str_in_In; auto.
Qed.

End RuleFacts.

(** What becomes of the first antecedent once the assertion and the
    normalization are through. *)
Definition first_antecedent_outcome (r : Rule.t) : result pyval :=
  match Rule.A_values r with
  | [] => Ok (PyFloat 1)
  | (k, _) :: _ =>
      match lookup k (Rule.delta r) with
      | Some _ => Raise TypeError
      | None => Raise (KeyError (PyStr k))
      end
  end.

Lemma weighted_alpha_outcome (r : Rule.t) (X : AttributeInput.t)
    (nd : dict spec_float) :
  Rule.norm_delta r = Ok nd ->
  missing_evidence r X = false ->
  (wa <- Rule.weighted_alpha r X nd ;; np_prod wa) = first_antecedent_outcome r.
Proof.
  intros Hnd Hm. unfold Rule.weighted_alpha, first_antecedent_outcome.
  destruct (Rule.A_values r) as [|[k v] rest] eqn:HA; [reflexivity|].
  cbn [keys map fst list_comp].
  assert (Hk : exists x, lookup k (AttributeInput.attr_input X) = Some x).
  { apply lookup_In_keys. apply (proj1 (missing_evidence_false r X) Hm).
    rewrite HA. now left. }
  destruct Hk as [x Hx]. unfold getitem at 1. rewrite Hx. cbn [bind].
  unfold getitem at 1.
  destruct (lookup k (Rule.delta r)) as [w|] eqn:Hw.
  - assert (Hq : exists q, lookup k nd = Some q).
    { apply lookup_In_keys. rewrite (norm_delta_keys r nd Hnd).
      apply lookup_In_keys. now exists w. }
    destruct Hq as [q ->]. cbn [bind].
    now rewrite py_xor_with_float_raises.
  - destruct (lookup k nd) as [q|] eqn:Hq; [|reflexivity].
    assert (Hin : In k (keys (Rule.delta r))).
    { rewrite <- (norm_delta_keys r nd Hnd). apply lookup_In_keys.
      now exists q. }
    apply lookup_In_keys in Hin as [w Hw']. congruence.
Qed.

(** The outcome of [get_matching_degree] in terms of its three stages. *)
Lemma get_matching_degree_outcome_eq (r : Rule.t) (X : AttributeInput.t) :
  Rule.get_matching_degree r X =
  if missing_evidence r X then Raise (AssertionError None)
  else match Rule.norm_delta r with
       | Raise e => Raise e
       | Ok _ => first_antecedent_outcome r
       end.
Proof.
  unfold Rule.get_matching_degree. rewrite assert_input_spec.
  destruct (missing_evidence r X) eqn:Hm; [reflexivity|].
  cbn [negb py_assert bind].
  destruct (Rule.norm_delta r) as [nd|e] eqn:Hnd; [|reflexivity].
  cbn [bind]. now apply weighted_alpha_outcome.
Qed.

(** ** class RuleBaseModel *)

Section ModelFacts.

Variable m : RuleBaseModel.t.

Lemma check_input_spec (X : AttributeInput.t) :
  RuleBaseModel.check_input m X =
  py_assert (forallb (fun k => py_in (PyStr k) (RuleBaseModel.U m))
                     (keys (AttributeInput.attr_input X))).
Proof. unfold RuleBaseModel.check_input. apply for_each_assert. Qed.

Lemma check_input_Ok (X : AttributeInput.t) :
  RuleBaseModel.check_input m X = Ok tt <->
  forall k, In k (keys (AttributeInput.attr_input X)) ->
            In (PyStr k) (RuleBaseModel.U m).
Proof.
  rewrite check_input_spec, py_assert_Ok, forallb_forall.
  split; intros H k Hk; apply py_in_str; auto.
Qed.

(** [run] has two outcomes: an exception, or [None]. *)
Lemma run_None_or_raises (X : AttributeInput.t) :
  RuleBaseModel.run m X = Ok PyNone \/ exists e, RuleBaseModel.run m X = Raise e.
Proof.
  unfold RuleBaseModel.run.
  destruct (RuleBaseModel.check_input m X); simpl; [|eauto].
  destruct (list_comp _ _); simpl; eauto.
Qed.

(** No handler in [run]: the exception of the first rule that cannot be
    matched is the outcome of the call. *)
Lemma run_first_failure (X : AttributeInput.t) (pre post : list Rule.t)
    (r : Rule.t) (e : exn) :
  RuleBaseModel.check_input m X = Ok tt ->
  RuleBaseModel.rules m = pre ++ r :: post ->
  (forall r', In r' pre -> exists v, Rule.get_matching_degree r' X = Ok v) ->
  Rule.get_matching_degree r X = Raise e ->
  RuleBaseModel.run m X = Raise e.
Proof.
  intros Hc Hrules Hpre Hr. unfold RuleBaseModel.run. rewrite Hc, Hrules.
  cbn [bind].
  now rewrite (list_comp_first_failure
                 (fun rule => Rule.get_matching_degree rule X)
                 pre post r e Hpre Hr).
Qed.

(** With nothing but strings in [U], the first assertion of [add_rule]
    fails whatever the rule. *)
Lemma add_rule_strings (r : Rule.t) :
  forallb is_str (RuleBaseModel.U m) = true ->
  RuleBaseModel.add_rule m r = Raise (AssertionError None).
Proof.
  intro H. unfold RuleBaseModel.add_rule.
  now rewrite (dict_keys_in_strings _ _ H).
Qed.

(** When [add_rule] returns, the rule is the new last element and
    nothing else changed. *)
Lemma add_rule_Ok_inv (r : Rule.t) (m' : RuleBaseModel.t) :
  RuleBaseModel.add_rule m r = Ok m' ->
  m' = RuleBaseModel.Build (RuleBaseModel.U m) (RuleBaseModel.A m)
         (RuleBaseModel.D m) (RuleBaseModel.F m)
         (RuleBaseModel.rules m ++ [r]).
Proof.
  unfold RuleBaseModel.add_rule. intro H.
  destruct (py_assert _); simpl in H; [|discriminate].
  destruct (for_each _ (Rule.A_values r)); simpl in H; [|discriminate].
  destruct (for_each _ (map fst (Rule.beta r))); simpl in H; [|discriminate].
  now injection H as <-.
Qed.


End ModelFacts.

(** * The claims *)

(** Claim C1.  [run] is to return a belief distribution over the consequent
    domain together with a residual ignorance, the two summing to one.  The
    body of [run] stops after the matching degrees: whatever the model and
    the input, a call either raises or returns [None]; in the scenario of
    the specification (the model before any rule is added) it returns
    [None], which is neither a distribution nor a number. *)
Theorem run_yields_no_belief_distribution :
  (forall (m : RuleBaseModel.t) (X : AttributeInput.t),
      RuleBaseModel.run m X = Ok PyNone
      \/ exists e, RuleBaseModel.run m X = Raise e)
  /\ RuleBaseModel.run Scenario.model Scenario.X_pair = Ok PyNone
  /\ RuleBaseModel.run Scenario.model_with_R1 Scenario.X_pair = Raise TypeError.
Proof.
  split; [exact run_None_or_raises|]. split; reflexivity.
Qed.

(** Claim C2.  The matching degree is to be the product of the powers
    [m_a ^ norm_weight[a]].  Line 50 applies Python's [^] to the evidence
    entry and the normalized weight; the latter is a float, for which [^]
    is undefined, so for the rule and the input of the specification's
    scenario -- whichever shape the evidence has -- the call raises
    [TypeError] instead of returning 1; and no rule with an antecedent ever
    gets a matching degree. *)
Theorem matching_degree_xor_raises_TypeError :
  Rule.get_matching_degree Scenario.R1 Scenario.X_pair = Raise TypeError
  /\ Rule.get_matching_degree Scenario.R1 Scenario.X_list = Raise TypeError
  /\ Rule.get_matching_degree Scenario.R1 Scenario.X_degree = Raise TypeError
  /\ (forall (r : Rule.t) (X : AttributeInput.t),
         Rule.A_values r = []
         \/ exists e, Rule.get_matching_degree r X = Raise e).
Proof.
  repeat split; try reflexivity.
  intros r X. destruct (Rule.A_values r) as [|a rest] eqn:E.
  - now left.
  - right. apply get_matching_degree_raises. congruence.
Qed.

(** Claim C3.  [add_rule] is to append every rule that satisfies I1-I4.
    The rule of the specification's scenario can be constructed and
    satisfies I1-I4 for the scenario's model, yet [add_rule] raises: line 90
    asks whether the keys view as a whole is an element of the list of
    attribute names. *)
Theorem add_rule_rejects_valid_rule :
  Rule.init (Rule.A_values Scenario.R1) (Rule.delta Scenario.R1)
            (Rule.theta Scenario.R1) (Rule.beta Scenario.R1) = Ok Scenario.R1
  /\ satisfies_I1 Scenario.model Scenario.R1 = true
  /\ satisfies_I2 Scenario.model Scenario.R1 = true
  /\ satisfies_I3 Scenario.model Scenario.R1 = true
  /\ satisfies_I4 Scenario.R1 = true
  /\ RuleBaseModel.add_rule Scenario.model Scenario.R1
     = Raise (AssertionError None).
Proof. repeat split; reflexivity. Qed.

(** Claim C4, against the code: a rule whose antecedents are not all in
    the input does not count as unactivated; its failed assertion ends the
    call.  Here the model holds the scenario's rule and the input is empty:
    the input check passes, the rule lacks evidence, and [run] raises. *)
Lemma run_aborts_on_missing_evidence_example :
  RuleBaseModel.check_input Scenario.model_with_R1 Scenario.X_empty = Ok tt
  /\ In Scenario.R1 (RuleBaseModel.rules Scenario.model_with_R1)
  /\ missing_evidence Scenario.R1 Scenario.X_empty = true
  /\ RuleBaseModel.run Scenario.model_with_R1 Scenario.X_empty
     = Raise (AssertionError None).
Proof. repeat split; try reflexivity. now left. Qed.

(** Claim C4, amended.  For every rule base and every input that passes
    the vocabulary check, if some rule's antecedent attributes are not all
    present in the input then [run] does not complete: it has no handler,
    so the exception of the first rule whose matching degree cannot be
    computed leaves [run] unchanged -- the bare [AssertionError] of
    [_assert_input] when that rule is one that lacks evidence. *)
Theorem run_propagates_missing_evidence
    (m : RuleBaseModel.t) (X : AttributeInput.t) :
  RuleBaseModel.check_input m X = Ok tt ->
  (exists r, In r (RuleBaseModel.rules m) /\ missing_evidence r X = true) ->
  exists pre r post e,
    RuleBaseModel.rules m = pre ++ r :: post
    /\ (forall r', In r' pre -> exists v, Rule.get_matching_degree r' X = Ok v)
    /\ Rule.get_matching_degree r X = Raise e
    /\ (missing_evidence r X = true -> e = AssertionError None)
    /\ RuleBaseModel.run m X = Raise e.
Proof.
  intros Hc (r0 & Hin & Hmiss).
  pose (f := fun rule => Rule.get_matching_degree rule X).
  destruct (list_comp f (RuleBaseModel.rules m)) as [vs|e] eqn:Hall.
  - destruct (list_comp_Ok_all f _ vs Hall r0 Hin) as [v Hv].
    unfold f in Hv. rewrite (missing_evidence_raises r0 X Hmiss) in Hv.
    discriminate.
  - destruct (list_comp_Raise_inv f _ e Hall) as (pre & r & post & Hr & Hpre & He).
    exists pre, r, post, e. repeat split; auto.
    + intro Hm. unfold f in He.
      rewrite (missing_evidence_raises r X Hm) in He. congruence.
    + eapply run_first_failure; eauto.
Qed.

Lemma run_propagates_missing_evidence_witness :
  exists pre r post e,
    RuleBaseModel.rules Scenario.model_with_R1 = pre ++ r :: post
    /\ (forall r', In r' pre ->
          exists v, Rule.get_matching_degree r' Scenario.X_empty = Ok v)
    /\ Rule.get_matching_degree r Scenario.X_empty = Raise e
    /\ (missing_evidence r Scenario.X_empty = true -> e = AssertionError None)
    /\ RuleBaseModel.run Scenario.model_with_R1 Scenario.X_empty = Raise e.
Proof.
  apply (run_propagates_missing_evidence
           Scenario.model_with_R1 Scenario.X_empty).
  - reflexivity.
  - exists Scenario.R1. split; [now left|reflexivity].
Defined.

(** Claim C5, against the code: the error of the input check names
    nothing.  For an input with the undeclared attribute [pressure], [run]
    raises an exception without any argument. *)
Lemma unknown_attribute_error_is_anonymous :
  exists e,
    RuleBaseModel.run Scenario.model Scenario.X_pressure = Raise e
    /\ exn_args e = []
    /\ ~ In (PyStr "pressure") (exn_args e).
Proof.
  exists (AssertionError None). repeat split. intros [].
Qed.

(** Claim C5, amended.  For every input that contains an attribute name
    outside the model's declared attribute list, [run] raises a bare
    [AssertionError] (no message, so the offending attribute is not named)
    and produces no result; the check passes exactly when every attribute
    name in the input is among the declared attributes. *)
Theorem run_rejects_unknown_attribute
    (m : RuleBaseModel.t) (X : AttributeInput.t) :
  (RuleBaseModel.check_input m X = Ok tt <->
   forall k, In k (keys (AttributeInput.attr_input X)) ->
             In (PyStr k) (RuleBaseModel.U m))
  /\ ((exists k, In k (keys (AttributeInput.attr_input X))
                 /\ ~ In (PyStr k) (RuleBaseModel.U m)) ->
      RuleBaseModel.run m X = Raise (AssertionError None)).
Proof.
  split; [apply check_input_Ok|].
  intros (k & Hk & Hnot). unfold RuleBaseModel.run.
  rewrite check_input_spec.
  destruct (forallb _ _) eqn:E; [|reflexivity].
  exfalso. apply Hnot. rewrite forallb_forall in E.
  now apply py_in_str, E.
Qed.

Lemma run_rejects_unknown_attribute_witness :
  (exists k, In k (keys (AttributeInput.attr_input Scenario.X_pressure))
             /\ ~ In (PyStr k) (RuleBaseModel.U Scenario.model))
  /\ RuleBaseModel.run Scenario.model Scenario.X_pressure
     = Raise (AssertionError None)
  /\ RuleBaseModel.check_input Scenario.model Scenario.X_pair = Ok tt.
Proof.
  assert (H : exists k,
             In k (keys (AttributeInput.attr_input Scenario.X_pressure))
             /\ ~ In (PyStr k) (RuleBaseModel.U Scenario.model)).
  { exists "pressure". split; [now left|].
    intros [H|[]]. discriminate. }
  split; [exact H|]. split.
  - exact (proj2 (run_rejects_unknown_attribute
                    Scenario.model Scenario.X_pressure) H).
  - apply (proj1 (run_rejects_unknown_attribute Scenario.model Scenario.X_pair)).
    intros k [<-|[]]. now left.
Defined.








(** Claim C8.  Every successfully constructed [Rule] satisfies I4 on its
    own: when [__init__] returns, the object stores the four arguments and
    every key of its antecedents is a key of its weights; and [__init__]
    raises when some antecedent attribute lacks a weight. *)
Theorem init_enforces_I4 (A_values : dict pyval) (delta : dict pynum)
    (theta : pynum)
    (beta : list (pyval * pyval)) :
  (forall r, Rule.init A_values delta theta beta = Ok r ->
             r = Rule.Build A_values delta theta beta
             /\ forall k, In k (keys (Rule.A_values r)) ->
                          In k (keys (Rule.delta r)))
  /\ ((exists k, In k (keys A_values) /\ ~ In k (keys delta)) ->
      Rule.init A_values delta theta beta = Raise (AssertionError None)).
Proof.
  rewrite init_spec.
  destruct (forallb _ _) eqn:E.
  - rewrite forallb_forall in E. split.
    + intros r H. injection H as <-. split; [reflexivity|].
      intros k Hk. now apply str_in_In, E.
    + intros (k & Hk & Hnot). exfalso. now apply Hnot, str_in_In, E.
  - split; [discriminate|reflexivity].
Qed.

Lemma init_enforces_I4_witness :
  Rule.init [("temp", PyStr "high")] [("temp", NInt 1)] (NInt 1)
            [(PyStr "fail", PyFloat (9 # 10))] = Ok Scenario.R1
  /\ (forall k, In k (keys (Rule.A_values Scenario.R1)) ->
                In k (keys (Rule.delta Scenario.R1)))
  /\ Rule.init [("temp", PyStr "high")] [] (NInt 1) []
     = Raise (AssertionError None).
Proof.
  split; [reflexivity|]. split.
  - apply (proj1 (init_enforces_I4 [("temp", PyStr "high")] [("temp", NInt 1)]
                    (NInt 1) [(PyStr "fail", PyFloat (9 # 10))])
                 Scenario.R1 eq_refl).
  - apply (proj2 (init_enforces_I4 [("temp", PyStr "high")] [] (NInt 1) [])).
    exists "temp". split; [now left|intros []].
Defined.

(** Claim C9, against the code.  An extra weight entry need not change
    the matching degree: a rule without antecedents has matching degree 1.0
    with and without the entry for [b], and a rule with the antecedent [a]
    raises [TypeError] with and without it.  Nor does it keep every
    antecedent below 1: with the integer weights [{'a': 2**60, 'b': 2**60+1}]
    the quotient of [a] by the larger [b] rounds to 1.0. *)
Lemma extra_weight_leaves_matching_degree :
  Rule.get_matching_degree Scenario.R_no_antecedent Scenario.X_a
  = Ok (PyFloat 1)
  /\ Rule.get_matching_degree
       (without_weight "b" Scenario.R_no_antecedent) Scenario.X_a
     = Ok (PyFloat 1)
  /\ Rule.delta (without_weight "b" Scenario.R_extra) = [("a", NInt 1)]
  /\ Rule.get_matching_degree Scenario.R_extra Scenario.X_a = Raise TypeError
  /\ Rule.get_matching_degree
       (without_weight "b" Scenario.R_extra) Scenario.X_a
     = Raise TypeError
  /\ num_gt (NInt (2 ^ 60 + 1)) (NInt (2 ^ 60)) = true
  /\ Rule.norm_delta Examples.R_close
     = Ok [("a", float_one); ("b", float_one)].
Proof. repeat split; vm_compute; reflexivity. Qed.

(** Claim C9, amended.  In [get_matching_degree], the normalizing divisor
    is the value [max] returns over all entries of the rule's weights
    mapping, including entries for attributes that are not among the rule's
    antecedents; consequently, for every rule whose weights mapping holds no
    NaN and contains an extra entry strictly larger than every antecedent
    weight, the divisor is not smaller than that entry and is strictly
    larger than every antecedent weight. *)
Theorem norm_delta_divides_by_overall_max (r : Rule.t) (b : string) (e : pynum) :
  lookup b (Rule.delta r) = Some e ->
  ~ In b (keys (Rule.A_values r)) ->
  (forall a d, In a (keys (Rule.A_values r)) ->
               lookup a (Rule.delta r) = Some d -> num_gt e d = true) ->
  (forall k w, In (k, w) (Rule.delta r) -> is_nan w = false) ->
  exists M,
    py_max (values (Rule.delta r)) = Ok M
    /\ In M (values (Rule.delta r))
    /\ Rule.norm_delta r = divide_all M (Rule.delta r)
    /\ num_gt e M = false
    /\ (forall a d, In a (keys (Rule.A_values r)) ->
                    lookup a (Rule.delta r) = Some d -> num_gt M d = true).
Proof.
  intros Hb _ Hlt Hnan.
  assert (Hne : values (Rule.delta r) <> []).
  { apply lookup_In in Hb. destruct (Rule.delta r); [destruct Hb|discriminate]. }
  destruct (py_max_nonempty _ Hne) as [M HM].
  destruct (py_max_spec _ _ HM) as [HMin HMub].
  assert (HeM : num_gt e M = false).
  { apply HMub, In_values. exists b. now apply lookup_In. }
  exists M. rewrite norm_delta_spec, HM. repeat split; auto.
  intros a d Ha Hd. specialize (Hlt a d Ha Hd).
  apply In_values in HMin as [k Hk].
  apply Hnan, is_nan_value in Hk. unfold num_gt in *.
  exact (ext_ltb_le_trans _ _ _ Hk Hlt HeM).
Qed.

Lemma norm_delta_divides_by_overall_max_witness :
  exists M,
    py_max (values (Rule.delta Scenario.R_extra)) = Ok M
    /\ In M (values (Rule.delta Scenario.R_extra))
    /\ Rule.norm_delta Scenario.R_extra
       = divide_all M (Rule.delta Scenario.R_extra)
    /\ num_gt (NInt 2) M = false
    /\ (forall a d, In a (keys (Rule.A_values Scenario.R_extra)) ->
                    lookup a (Rule.delta Scenario.R_extra) = Some d ->
                    num_gt M d = true).
Proof.
  apply (norm_delta_divides_by_overall_max Scenario.R_extra "b" (NInt 2)).
  - reflexivity.
  - intros [H|[]]. discriminate.
  - intros a d [<-|[]] H. injection H as <-. reflexivity.
  - intros k w [H|[H|[]]]; injection H as _ <-; reflexivity.
Defined.

(** Claim C10.  Constructing an [AttributeInput] is to succeed for every
    evidence mapping.  The annotation of line 15 names [Tuple], which
    line 1 does not import: executing the module raises [NameError] inside
    the body of the first class, so [AttributeInput] is never bound and
    nothing can be constructed; with [Tuple] imported as well, the module
    executes and binds its three classes. *)
Theorem import_brb_raises_NameError :
  import_brb = Raise (NameError "Tuple")
  /\ ~ In "Tuple" (brb_imports ++ builtin_names)
  /\ exec_classes ("Tuple" :: brb_imports) brb_classes
     = Ok ["RuleBaseModel"; "Rule"; "AttributeInput"; "Tuple";
           "List"; "Dict"; "Any"; "np"].
Proof.
  split; [reflexivity|]. split; [|reflexivity].
  intro H. repeat (destruct H as [H|H]; [discriminate|]). exact H.
Qed.

(** * Further properties of the code *)

(** ** The three checks of [add_rule] *)

(** Line 90 passes exactly when [U] holds a set made of the rule's
    antecedent attribute names. *)
Lemma dict_keys_in_iff (ks : list string) (xs : list pyval) :
  dict_keys_in ks xs = true <->
  exists ys, In (PySet ys) xs
             /\ (forall k, In k ks -> In (PyStr k) ys)
             /\ (forall y, In y ys -> exists k, In k ks /\ y = PyStr k).
Proof.
  unfold dict_keys_in. rewrite existsb_exists. split.
  - intros (v & Hv & Heq). destruct v; try discriminate. simpl in Heq.
    apply andb_true_iff in Heq as [H1 H2].
    rewrite forallb_forall in H1, H2. exists items. split; [exact Hv|]. split.
    + intros k Hk. specialize (H1 k Hk).
      apply existsb_exists in H1 as (y & Hy & E).
      apply py_eq_str in E. now subst.
    + intros y Hy. specialize (H2 y Hy).
      apply existsb_exists in H2 as (k & Hk & E).
      apply py_eq_str in E. now exists k.
  - intros (ys & Hin & H1 & H2). exists (PySet ys). split; [exact Hin|].
    unfold dict_keys_eq. apply andb_true_iff. rewrite !forallb_forall. split.
    + intros k Hk. apply existsb_exists. exists (PyStr k).
      split; [now apply H1|now apply py_eq_str].
    + intros y Hy. destruct (H2 y Hy) as (k & Hk & ->).
      apply existsb_exists. exists k. split; [exact Hk|now apply py_eq_str].
Qed.

Section AddRuleChecks.

Variable m : RuleBaseModel.t.

(** The body of the loop of lines 93-94. *)
Definition domain_check (item : string * pyval) : result unit :=
  let (U_i, A_i) := item in
  dom <- getitem (RuleBaseModel.A m) U_i ;; py_assert (py_in A_i dom).

Lemma domain_check_Ok (k : string) (v : pyval) :
  domain_check (k, v) = Ok tt <->
  exists dom, lookup k (RuleBaseModel.A m) = Some dom /\ py_in v dom = true.
Proof.
  unfold domain_check, getitem.
  destruct (lookup k (RuleBaseModel.A m)) as [dom|]; simpl.
  - rewrite py_assert_Ok. split.
    + intro H. now exists dom.
    + intros (dom' & E & H). now injection E as ->.
  - split; [discriminate|intros (dom & E & _); discriminate].
Qed.

Lemma domain_check_Raise (k : string) (v : pyval) (e : exn) :
  domain_check (k, v) = Raise e ->
  e = AssertionError None
  \/ (e = KeyError (PyStr k) /\ lookup k (RuleBaseModel.A m) = None).
Proof.
  unfold domain_check, getitem.
  destruct (lookup k (RuleBaseModel.A m)) as [dom|]; simpl.
  - unfold py_assert. destruct (py_in v dom); [discriminate|].
    intro H. injection H as <-. now left.
  - intro H. injection H as <-. now right.
Qed.

Lemma add_rule_unfold (r : Rule.t) :
  RuleBaseModel.add_rule m r =
  (py_assert (dict_keys_in (keys (Rule.A_values r)) (RuleBaseModel.U m)) ;;;
   for_each domain_check (Rule.A_values r) ;;;
   py_assert (forallb (fun d => py_in d (RuleBaseModel.D m))
                      (map fst (Rule.beta r))) ;;;
   Ok (RuleBaseModel.Build (RuleBaseModel.U m) (RuleBaseModel.A m)
         (RuleBaseModel.D m) (RuleBaseModel.F m)
         (RuleBaseModel.rules m ++ [r]))).
Proof.
  unfold RuleBaseModel.add_rule. now rewrite for_each_assert.
Qed.

End AddRuleChecks.

(** The outcome of [add_rule] is decided by the vocabulary alone. *)
Lemma add_rule_same_vocabulary (m m' : RuleBaseModel.t) (r : Rule.t) :
  RuleBaseModel.U m' = RuleBaseModel.U m ->
  RuleBaseModel.A m' = RuleBaseModel.A m ->
  RuleBaseModel.D m' = RuleBaseModel.D m ->
  RuleBaseModel.add_rule m' r =
  match RuleBaseModel.add_rule m r with
  | Ok _ =>
      Ok (RuleBaseModel.Build (RuleBaseModel.U m') (RuleBaseModel.A m')
            (RuleBaseModel.D m') (RuleBaseModel.F m')
            (RuleBaseModel.rules m' ++ [r]))
  | Raise e => Raise e
  end.
Proof.
  intros HU HA HD. rewrite !add_rule_unfold. unfold domain_check.
  rewrite HU, HA, HD.
  destruct (py_assert (dict_keys_in _ _)); simpl; [|reflexivity].
  destruct (for_each _ _); simpl; [|reflexivity].
  destruct (py_assert (forallb _ _)); simpl; [|reflexivity].
  now rewrite <- HU, <- HA, <- HD.
Qed.

(** ** add_rule: when it admits, how it fails, how calls compose *)

(** X1.  [add_rule] returns exactly when the three checks pass -- [U]
    holds a set made of the rule's antecedent attribute names, every
    antecedent attribute has a domain in [A] that contains the rule's
    referential value, every consequent of the rule is in [D] -- and then
    the model is the old one with the rule appended as last element. *)
Theorem add_rule_admits_iff (m m' : RuleBaseModel.t) (r : Rule.t) :
  RuleBaseModel.add_rule m r = Ok m' <->
  (exists ys, In (PySet ys) (RuleBaseModel.U m)
              /\ (forall k, In k (keys (Rule.A_values r)) -> In (PyStr k) ys)
              /\ (forall y, In y ys ->
                    exists k, In k (keys (Rule.A_values r)) /\ y = PyStr k))
  /\ (forall k v, In (k, v) (Rule.A_values r) ->
        exists dom, lookup k (RuleBaseModel.A m) = Some dom
                    /\ py_in v dom = true)
  /\ (forall d, In d (map fst (Rule.beta r)) ->
        py_in d (RuleBaseModel.D m) = true)
  /\ m' = RuleBaseModel.Build (RuleBaseModel.U m) (RuleBaseModel.A m)
            (RuleBaseModel.D m) (RuleBaseModel.F m)
            (RuleBaseModel.rules m ++ [r]).
Proof.
  rewrite add_rule_unfold, <- dict_keys_in_iff. split.
  - intro H.
    destruct (dict_keys_in _ _) eqn:E1; simpl in H; [|discriminate].
    destruct (for_each _ _) as [[]|] eqn:E2; simpl in H; [|discriminate].
    destruct (forallb _ _) eqn:E3; simpl in H; [|discriminate].
    injection H as <-. repeat split.
    + intros k v Hin. apply domain_check_Ok.
      now apply (proj1 (for_each_Ok _ _) E2 (k, v)).
    + intros d Hd. rewrite forallb_forall in E3. now apply E3.
  - intros (H1 & H2 & H3 & ->). rewrite H1. simpl.
    assert (E2 : for_each (domain_check m) (Rule.A_values r) = Ok tt).
    { apply for_each_Ok. intros [k v] Hin. apply domain_check_Ok. now apply H2. }
    rewrite E2. simpl.
    assert (E3 : forallb (fun d => py_in d (RuleBaseModel.D m))
                         (map fst (Rule.beta r)) = true).
    { apply forallb_forall. exact H3. }
    now rewrite E3.
Qed.

Lemma add_rule_admits_iff_witness :
  RuleBaseModel.add_rule Scenario.model_set_in_U Scenario.R1
  = Ok (RuleBaseModel.Build [PyStr "temp"; PySet [PyStr "temp"]]
          Scenario.A Scenario.D PyNone [Scenario.R1]).
Proof.
  apply (proj2 (add_rule_admits_iff Scenario.model_set_in_U _ Scenario.R1)).
  split; [|split; [|split]].
  - exists [PyStr "temp"]. split; [right; now left|]. split.
    + intros k [<-|[]]. now left.
    + intros y [<-|[]]. exists "temp". split; [now left|reflexivity].
  - intros k v [H|[]]. injection H as <- <-.
    exists [PyStr "low"; PyStr "high"]. split; reflexivity.
  - intros d [<-|[]]. reflexivity.
  - reflexivity.
Defined.

(** X2.  When line 90 passes and the antecedents before some attribute
    are all valid, an attribute without an entry in [A] makes [add_rule]
    raise the [KeyError] of [self.A[U_i]], naming that attribute -- not an
    assertion failure -- and nothing is appended. *)
Theorem add_rule_undeclared_domain_KeyError
    (m : RuleBaseModel.t) (r : Rule.t)
    (pre post : dict pyval) (k : string) (v : pyval) :
  dict_keys_in (keys (Rule.A_values r)) (RuleBaseModel.U m) = true ->
  Rule.A_values r = pre ++ (k, v) :: post ->
  (forall k' v', In (k', v') pre ->
     exists dom, lookup k' (RuleBaseModel.A m) = Some dom
                 /\ py_in v' dom = true) ->
  lookup k (RuleBaseModel.A m) = None ->
  RuleBaseModel.add_rule m r = Raise (KeyError (PyStr k)).
Proof.
  intros H1 HA Hpre Hk. rewrite add_rule_unfold, H1. simpl.
  rewrite HA.
  rewrite (for_each_first_failure (domain_check m) pre post (k, v)
             (KeyError (PyStr k))).
  - reflexivity.
  - intros [k' v'] Hin. apply domain_check_Ok. now apply Hpre.
  - unfold domain_check, getitem. now rewrite Hk.
Qed.

Lemma add_rule_undeclared_domain_KeyError_witness :
  RuleBaseModel.add_rule Examples.model_no_domain Scenario.R1
  = Raise (KeyError (PyStr "temp")).
Proof.
  apply (add_rule_undeclared_domain_KeyError
           Examples.model_no_domain Scenario.R1 [] [] "temp" (PyStr "high")).
  - reflexivity.
  - reflexivity.
  - intros k' v' [].
  - reflexivity.
Defined.

(** X3.  [add_rule] fails in two ways only: a bare [AssertionError], or a
    [KeyError] that names an antecedent attribute of the rule for which [A]
    has no entry. *)
Theorem add_rule_exceptions (m : RuleBaseModel.t) (r : Rule.t) (e : exn) :
  RuleBaseModel.add_rule m r = Raise e ->
  e = AssertionError None
  \/ exists k, e = KeyError (PyStr k)
               /\ In k (keys (Rule.A_values r))
               /\ lookup k (RuleBaseModel.A m) = None.
Proof.
  rewrite add_rule_unfold. intro H.
  destruct (dict_keys_in _ _); simpl in H;
    [|injection H as <-; now left].
  destruct (for_each _ _) as [[]|e2] eqn:E2; simpl in H.
  - destruct (forallb _ _); simpl in H; [discriminate|].
    injection H as <-. now left.
  - injection H as ->.
    apply for_each_Raise_inv in E2 as ([k v] & Hin & Hb).
    apply domain_check_Raise in Hb as [->|[-> Hk]]; [now left|].
    right. exists k. repeat split; auto.
    unfold keys. apply in_map_iff. now exists (k, v).
Qed.

Lemma add_rule_exceptions_witness :
  KeyError (PyStr "temp") = AssertionError None
  \/ exists k, KeyError (PyStr "temp") = KeyError (PyStr k)
               /\ In k (keys (Rule.A_values Scenario.R1))
               /\ lookup k (RuleBaseModel.A Examples.model_no_domain) = None.
Proof.
  apply (add_rule_exceptions Examples.model_no_domain Scenario.R1).
  reflexivity.
Defined.

Lemma add_rules_Ok_iff (rs : list Rule.t) :
  forall m m',
    add_rules m rs = Ok m' <->
    (forall r, In r rs -> exists m1, RuleBaseModel.add_rule m r = Ok m1)
    /\ m' = RuleBaseModel.Build (RuleBaseModel.U m) (RuleBaseModel.A m)
              (RuleBaseModel.D m) (RuleBaseModel.F m)
              (RuleBaseModel.rules m ++ rs).
Proof.
  induction rs as [|r rest IH]; intros m m'; simpl.
  - rewrite app_nil_r. destruct m. simpl. split.
    + intro H. injection H as <-. split; [intros r []|reflexivity].
    + intros [_ ->]. reflexivity.
  - destruct (RuleBaseModel.add_rule m r) as [m1|e] eqn:E; simpl.
    + pose proof (add_rule_Ok_inv m r m1 E) as Hm1.
      assert (Hsame : forall r', (exists m2, RuleBaseModel.add_rule m1 r' = Ok m2)
                                 <-> exists m2, RuleBaseModel.add_rule m r' = Ok m2).
      { intro r'.
        rewrite (add_rule_same_vocabulary m m1 r') by (subst m1; reflexivity).
        destruct (RuleBaseModel.add_rule m r'); split; intros [m2 H];
          try discriminate; eauto. }
      rewrite IH. subst m1. cbn [RuleBaseModel.U RuleBaseModel.A
        RuleBaseModel.D RuleBaseModel.F RuleBaseModel.rules].
      rewrite <- app_assoc. cbn [app]. split.
      * intros [Hall ->]. split; [|reflexivity].
        intros r' [<-|Hin]; [eauto|]. apply Hsame. now apply Hall.
      * intros [Hall ->]. split; [|reflexivity].
        intros r' Hin. apply Hsame. apply Hall. now right.
    + split; [discriminate|].
      intros [Hall _]. destruct (Hall r (or_introl eq_refl)) as [m1 H].
      congruence.
Qed.

(** X4.  Offering a batch of rules one after the other succeeds exactly
    when the initial model admits each of them on its own (what the model
    already holds plays no part, so a rule can be added twice), and the
    result is the initial model with the batch appended in order. *)
Theorem add_rules_in_order (m m' : RuleBaseModel.t) (rs : list Rule.t) :
  add_rules m rs = Ok m' <->
  (forall r, In r rs -> exists m1, RuleBaseModel.add_rule m r = Ok m1)
  /\ m' = RuleBaseModel.Build (RuleBaseModel.U m) (RuleBaseModel.A m)
            (RuleBaseModel.D m) (RuleBaseModel.F m)
            (RuleBaseModel.rules m ++ rs).
Proof. apply add_rules_Ok_iff. Qed.

Lemma add_rules_in_order_witness :
  add_rules Scenario.model_set_in_U
            [Scenario.R1; Examples.R1_ok; Scenario.R1]
  = Ok (RuleBaseModel.Build [PyStr "temp"; PySet [PyStr "temp"]]
          Scenario.A Scenario.D PyNone
          [Scenario.R1; Examples.R1_ok; Scenario.R1]).
Proof.
  apply (proj2 (add_rules_in_order Scenario.model_set_in_U _
                  [Scenario.R1; Examples.R1_ok; Scenario.R1])).
  split; [|reflexivity].
  intros r [<-|[<-|[<-|[]]]]; eexists; reflexivity.
Defined.

(** ** Rule: the input assertion and the matching degree *)

(** X5.  [_assert_input] passes exactly when every antecedent attribute of
    the rule is a key of the input (further keys of the input do no harm);
    otherwise it raises a bare [AssertionError]. *)
Theorem assert_input_passes_iff (r : Rule.t) (X : AttributeInput.t) :
  (Rule._assert_input r X = Ok tt <->
   forall k, In k (keys (Rule.A_values r)) ->
             In k (keys (AttributeInput.attr_input X)))
  /\ (Rule._assert_input r X = Ok tt
      \/ Rule._assert_input r X = Raise (AssertionError None)).
Proof.
  rewrite assert_input_spec, <- missing_evidence_false.
  destruct (missing_evidence r X); simpl; split; auto.
  - split; discriminate.
  - split; reflexivity.
Qed.

Lemma assert_input_passes_iff_witness :
  Rule._assert_input Scenario.R1
    (AttributeInput.Build [("load", PyFloat 1); ("temp", PyFloat 1)]) = Ok tt.
Proof.
  apply (proj1 (assert_input_passes_iff Scenario.R1 _)).
  intros k [<-|[]]. right. now left.
Defined.

(** X6.  The outcome of [get_matching_degree], in the order the code
    reaches the cases: a bare [AssertionError] when an antecedent attribute
    is missing from the input; else the exception of line 49 when the
    normalization raises; else 1.0 when the rule has no antecedent; else,
    for the first antecedent attribute, [KeyError] naming it when it has no
    weight and [TypeError] when it has one. *)
Theorem get_matching_degree_outcome (r : Rule.t) (X : AttributeInput.t) :
  Rule.get_matching_degree r X =
  if missing_evidence r X then Raise (AssertionError None)
  else match Rule.norm_delta r with
       | Raise e => Raise e
       | Ok _ =>
           match Rule.A_values r with
           | [] => Ok (PyFloat 1)
           | (k, _) :: _ =>
               match lookup k (Rule.delta r) with
               | Some _ => Raise TypeError
               | None => Raise (KeyError (PyStr k))
               end
           end
       end.
Proof. apply get_matching_degree_outcome_eq. Qed.

(** X7.  For a rule the constructor returned, with at least one
    antecedent and all antecedent attributes present in the input,
    [get_matching_degree] raises [TypeError] whenever line 49 completes. *)
Theorem constructed_rule_raises_TypeError
    (A_values : dict pyval) (delta : dict pynum) (theta : pynum)
    (beta : list (pyval * pyval)) (r : Rule.t) (X : AttributeInput.t)
    (nd : dict spec_float) :
  Rule.init A_values delta theta beta = Ok r ->
  A_values <> [] ->
  missing_evidence r X = false ->
  Rule.norm_delta r = Ok nd ->
  Rule.get_matching_degree r X = Raise TypeError.
Proof.
  intros Hinit HA Hm Hnd. rewrite init_spec in Hinit.
  destruct (forallb _ _) eqn:E; [|discriminate]. injection Hinit as <-.
  rewrite get_matching_degree_outcome_eq, Hm, Hnd.
  unfold first_antecedent_outcome. cbn [Rule.A_values Rule.delta].
  destruct A_values as [|[k v] rest]; [congruence|].
  simpl in E. apply andb_true_iff in E as [Hk _].
  apply str_in_In, lookup_In_keys in Hk as [w Hw]. now rewrite Hw.
Qed.

Lemma constructed_rule_raises_TypeError_witness :
  Rule.get_matching_degree Examples.R1_ok Scenario.X_overfull = Raise TypeError.
Proof.
  apply (constructed_rule_raises_TypeError
           [("temp", PyStr "high")] [("temp", NInt 1)] (NInt 1)
           [(PyStr "ok", PyFloat (1 # 2))] Examples.R1_ok Scenario.X_overfull
           [("temp", float_one)]).
  - reflexivity.
  - discriminate.
  - reflexivity.
  - reflexivity.
Defined.

(** X8.  For a rule without antecedents the input plays no part: the call
    returns the empty product 1.0 when line 49 completes and raises the
    exception of line 49 otherwise, even for the empty input. *)
Theorem antecedent_free_rule_matches (r : Rule.t) (X : AttributeInput.t) :
  Rule.A_values r = [] ->
  Rule.get_matching_degree r X =
  match Rule.norm_delta r with
  | Ok _ => Ok (PyFloat 1)
  | Raise e => Raise e
  end.
Proof.
  intro HA. rewrite get_matching_degree_outcome_eq.
  unfold missing_evidence, first_antecedent_outcome. rewrite HA. simpl.
  now destruct (Rule.norm_delta r).
Qed.

Lemma antecedent_free_rule_matches_witness :
  Rule.get_matching_degree Examples.R_weighted Scenario.X_empty
  = Ok (PyFloat 1)
  /\ Rule.get_matching_degree Examples.R_huge Scenario.X_empty
     = Raise OverflowError.
Proof.
  split.
  - exact (antecedent_free_rule_matches Examples.R_weighted Scenario.X_empty
             eq_refl).
  - exact (antecedent_free_rule_matches Examples.R_huge Scenario.X_empty
             eq_refl).
Defined.

(** ** Rule: the normalized weights of line 49 *)

(** X9.  When every weight is a float, line 49 never overflows: [max]
    returns a float, the normalization raises [ZeroDivisionError] when that
    float is 0.0 or -0.0, and otherwise it succeeds, keeps the keys in
    their order and gives each attribute the binary64 quotient of its
    weight by the maximum. *)
Theorem norm_delta_float_weights (r : Rule.t) (M : pynum) :
  (forall k w, In (k, w) (Rule.delta r) -> is_float w = true) ->
  py_max (values (Rule.delta r)) = Ok M ->
  exists g,
    M = NFloat g
    /\ (is_zero_float g = true -> Rule.norm_delta r = Raise ZeroDivisionError)
    /\ (is_zero_float g = false ->
        exists nd,
          Rule.norm_delta r = Ok nd
          /\ keys nd = keys (Rule.delta r)
          /\ forall k f, lookup k (Rule.delta r) = Some (NFloat f) ->
                         lookup k nd = Some (SFdiv 53 1024 f g)).
Proof.
  intros Hfloat HM.
  destruct (py_max_spec _ _ HM) as [HMin _].
  apply In_values in HMin as [kM HkM].
  pose proof (Hfloat kM M HkM) as HMf.
  destruct M as [|g]; [discriminate|]. exists g. split; [reflexivity|].
  rewrite norm_delta_spec, HM. split.
  - intro Hz. destruct (Rule.delta r) as [|[k0 w0] rest] eqn:Hd;
      [destruct HkM|].
    pose proof (Hfloat k0 w0 (or_introl eq_refl)) as H0.
    destruct w0 as [|f0]; [discriminate|].
    unfold divide_all. cbn [list_comp snd].
    now rewrite py_truediv_floats, Hz.
  - intro Hz.
    destruct (divide_all_Ok (NFloat g) (Rule.delta r)) as [nd Hnd].
    { intros k w Hin. specialize (Hfloat k w Hin).
      destruct w as [|f]; [discriminate|].
      rewrite py_truediv_floats, Hz. eauto. }
    exists nd. split; [exact Hnd|]. split.
    + now apply (divide_all_keys (NFloat g)).
    + intros k f Hk.
      destruct (divide_all_lookup _ _ k _ nd Hnd Hk) as (q & Hq & ->).
      rewrite py_truediv_floats, Hz in Hq. now injection Hq as <-.
Qed.

Lemma norm_delta_float_weights_witness :
  exists g,
    NFloat Examples.f_three = NFloat g
    /\ (is_zero_float g = true ->
        Rule.norm_delta Examples.R_floats = Raise ZeroDivisionError)
    /\ (is_zero_float g = false ->
        exists nd,
          Rule.norm_delta Examples.R_floats = Ok nd
          /\ keys nd = keys (Rule.delta Examples.R_floats)
          /\ forall k f,
               lookup k (Rule.delta Examples.R_floats) = Some (NFloat f) ->
               lookup k nd = Some (SFdiv 53 1024 f g)).
Proof.
  apply (norm_delta_float_weights Examples.R_floats (NFloat Examples.f_three)).
  - intros k w [H|[H|[]]]; injection H as _ <-; reflexivity.
  - reflexivity.
Defined.

(** X10.  Line 49 fails in two ways only, [ZeroDivisionError] and
    [OverflowError], each raised by the division of some weight of the
    mapping by the maximum.  An empty mapping is normalized to an empty
    mapping ([max] is never called on it), and a successful normalization
    keeps the keys. *)
Theorem norm_delta_failure (r : Rule.t) :
  (forall e, Rule.norm_delta r = Raise e ->
             (e = ZeroDivisionError \/ e = OverflowError)
             /\ exists M k w, py_max (values (Rule.delta r)) = Ok M
                              /\ In (k, w) (Rule.delta r)
                              /\ py_truediv w M = Raise e)
  /\ (Rule.delta r = [] -> Rule.norm_delta r = Ok [])
  /\ (forall nd, Rule.norm_delta r = Ok nd -> keys nd = keys (Rule.delta r)).
Proof.
  split; [|split].
  - apply norm_delta_Raise.
  - unfold Rule.norm_delta. intros ->. reflexivity.
  - apply norm_delta_keys.
Qed.

Lemma norm_delta_failure_witness :
  ((OverflowError = ZeroDivisionError \/ OverflowError = OverflowError)
   /\ exists M k w, py_max (values (Rule.delta Examples.R_huge)) = Ok M
                    /\ In (k, w) (Rule.delta Examples.R_huge)
                    /\ py_truediv w M = Raise OverflowError)
  /\ Rule.norm_delta Examples.R_plain = Ok []
  /\ keys [("temp", S754_finite false 4503599627370496 (-54));
           ("load", float_one)]
     = keys (Rule.delta Examples.R_weighted).
Proof.
  split; [|split].
  - apply (proj1 (norm_delta_failure Examples.R_huge) OverflowError).
    vm_compute. reflexivity.
  - apply (proj1 (proj2 (norm_delta_failure Examples.R_plain))). reflexivity.
  - apply (proj2 (proj2 (norm_delta_failure Examples.R_weighted))).
    vm_compute. reflexivity.
Defined.

(** ** RuleBaseModel.run *)

Lemma get_matching_degree_Ok_iff (r : Rule.t) (X : AttributeInput.t) :
  (exists v, Rule.get_matching_degree r X = Ok v) <->
  Rule.A_values r = [] /\ exists nd, Rule.norm_delta r = Ok nd.
Proof.
  split.
  - intros [v H]. pose proof (get_matching_degree_Ok_inv r X v H) as [HA _].
    split; [exact HA|].
    rewrite get_matching_degree_outcome_eq in H.
    destruct (missing_evidence r X); [discriminate|].
    destruct (Rule.norm_delta r) as [nd|]; [eauto|discriminate].
  - intros [HA [nd Hnd]]. exists (PyFloat 1).
    rewrite get_matching_degree_outcome_eq, Hnd.
    unfold missing_evidence, first_antecedent_outcome. now rewrite HA.
Qed.

(** X11.  [run] returns (and then returns [None]) exactly when every
    attribute name of the input is an element of [U] and every rule of the
    model has no antecedent and weights that line 49 can normalize; a
    single rule with an antecedent makes every call raise. *)
Theorem run_returns_iff (m : RuleBaseModel.t) (X : AttributeInput.t) :
  RuleBaseModel.run m X = Ok PyNone <->
  (forall k, In k (keys (AttributeInput.attr_input X)) ->
             In (PyStr k) (RuleBaseModel.U m))
  /\ (forall r, In r (RuleBaseModel.rules m) ->
        Rule.A_values r = [] /\ exists nd, Rule.norm_delta r = Ok nd).
Proof.
  rewrite <- check_input_Ok. unfold RuleBaseModel.run. split.
  - intro H.
    destruct (RuleBaseModel.check_input m X) as [[]|]; simpl in H;
      [|discriminate].
    split; [reflexivity|]. intros r Hr.
    destruct (list_comp _ (RuleBaseModel.rules m)) as [vs|] eqn:E;
      simpl in H; [|discriminate].
    apply (get_matching_degree_Ok_iff r X).
    exact (list_comp_Ok_all _ _ vs E r Hr).
  - intros [-> Hall]. simpl.
    destruct (list_comp_all_Ok (fun rule => Rule.get_matching_degree rule X)
                (RuleBaseModel.rules m)) as [vs ->]; [|reflexivity].
    intros r Hr. apply get_matching_degree_Ok_iff. now apply Hall.
Qed.

Lemma run_returns_iff_witness :
  RuleBaseModel.run Examples.model_plain Scenario.X_pair = Ok PyNone.
Proof.
  apply (proj2 (run_returns_iff Examples.model_plain Scenario.X_pair)). split.
  - intros k [<-|[]]. now left.
  - intros r [<-|[<-|[]]]; (split; [reflexivity|]); eexists;
      vm_compute; reflexivity.
Defined.

(** X12.  The evidence values never influence the outcome: two inputs
    with the same attribute names give the same result or exception, for
    [get_matching_degree] of any rule and for [run] of any model, whatever
    values and belief degrees they hold. *)
Theorem outcome_ignores_evidence_values
    (m : RuleBaseModel.t) (X X' : AttributeInput.t) :
  keys (AttributeInput.attr_input X) = keys (AttributeInput.attr_input X') ->
  (forall r, Rule.get_matching_degree r X = Rule.get_matching_degree r X')
  /\ RuleBaseModel.run m X = RuleBaseModel.run m X'.
Proof.
  intro Hk.
  assert (Hg : forall r, Rule.get_matching_degree r X
                         = Rule.get_matching_degree r X').
  { intro r. rewrite !get_matching_degree_outcome_eq.
    unfold missing_evidence. now rewrite Hk. }
  split; [exact Hg|].
  unfold RuleBaseModel.run. rewrite !check_input_spec, Hk.
  destruct (py_assert _); simpl; [|reflexivity].
  rewrite (list_comp_ext (fun rule => Rule.get_matching_degree rule X)
             (fun rule => Rule.get_matching_degree rule X')); [reflexivity|].
  intros r _. apply Hg.
Qed.

Lemma outcome_ignores_evidence_values_witness :
  (forall r, Rule.get_matching_degree r Scenario.X_pair
             = Rule.get_matching_degree r Scenario.X_overfull)
  /\ RuleBaseModel.run Scenario.model_with_R1 Scenario.X_pair
     = RuleBaseModel.run Scenario.model_with_R1 Scenario.X_overfull.
Proof.
  apply (outcome_ignores_evidence_values
           Scenario.model_with_R1 Scenario.X_pair Scenario.X_overfull).
  reflexivity.
Defined.

(** X13.  A model constructed with nothing but strings in [U] never gets
    a rule through [add_rule]: every non-empty batch is refused at its
    first rule with a bare [AssertionError], and [run] on the constructed
    model returns [None] when all attribute names of the input are in [U]
    and raises a bare [AssertionError] otherwise. *)
Theorem string_vocabulary_model_stays_empty
    (U : list pyval) (A : dict (list pyval)) (D : list pyval) (F : pyval)
    (m : RuleBaseModel.t) :
  RuleBaseModel.init U A D F = Ok m ->
  forallb is_str U = true ->
  RuleBaseModel.rules m = []
  /\ (forall r rest, add_rules m (r :: rest) = Raise (AssertionError None))
  /\ (forall X,
        RuleBaseModel.run m X =
        if forallb (fun k => py_in (PyStr k) U)
                   (keys (AttributeInput.attr_input X))
        then Ok PyNone else Raise (AssertionError None)).
Proof.
  intros Hinit HU. injection Hinit as <-. split; [reflexivity|]. split.
  - intros r rest. simpl. now rewrite add_rule_strings.
  - intro X. unfold RuleBaseModel.run. rewrite check_input_spec.
    cbn [RuleBaseModel.U RuleBaseModel.rules list_comp].
    destruct (forallb (fun k => py_in (PyStr k) U) _); reflexivity.
Qed.

Lemma string_vocabulary_model_stays_empty_witness :
  RuleBaseModel.rules Scenario.model = []
  /\ (forall r rest,
        add_rules Scenario.model (r :: rest) = Raise (AssertionError None))
  /\ (forall X,
        RuleBaseModel.run Scenario.model X =
        if forallb (fun k => py_in (PyStr k) [PyStr "temp"])
                   (keys (AttributeInput.attr_input X))
        then Ok PyNone else Raise (AssertionError None)).
Proof.
  apply (string_vocabulary_model_stays_empty
           [PyStr "temp"] Scenario.A Scenario.D PyNone Scenario.model).
  - reflexivity.
  - reflexivity.
Defined.

Lemma get_matching_degree_Raise_inv (r : Rule.t) (X : AttributeInput.t)
    (e : exn) :
  Rule.get_matching_degree r X = Raise e ->
  e = AssertionError None \/ e = ZeroDivisionError \/ e = OverflowError
  \/ e = TypeError
  \/ exists k, e = KeyError (PyStr k)
               /\ In k (keys (Rule.A_values r))
               /\ lookup k (Rule.delta r) = None.
Proof.
  rewrite get_matching_degree_outcome_eq.
  destruct (missing_evidence r X).
  - intro H. injection H as <-. now left.
  - destruct (Rule.norm_delta r) as [nd|e'] eqn:Hnd.
    + unfold first_antecedent_outcome.
      destruct (Rule.A_values r) as [|[k v] rest]; [discriminate|].
      destruct (lookup k (Rule.delta r)) eqn:Hk; intro H; injection H as <-.
      * right. right. right. now left.
      * right. right. right. right. exists k. repeat split; auto. now left.
    + intro H. injection H as ->.
      apply norm_delta_Raise in Hnd as [[->| ->] _]; auto.
Qed.

(** X14.  [run] fails in five ways only: a bare [AssertionError] (input
    check or [_assert_input]), the [ZeroDivisionError] or [OverflowError]
    of line 49, [TypeError], or a [KeyError] naming an antecedent attribute
    of one of the model's rules that has no weight in that rule -- so never
    a [KeyError] when every rule came out of the constructor. *)
Theorem run_exceptions (m : RuleBaseModel.t) (X : AttributeInput.t) (e : exn) :
  RuleBaseModel.run m X = Raise e ->
  e = AssertionError None \/ e = ZeroDivisionError \/ e = OverflowError
  \/ e = TypeError
  \/ exists r k, In r (RuleBaseModel.rules m)
                 /\ e = KeyError (PyStr k)
                 /\ In k (keys (Rule.A_values r))
                 /\ ~ In k (keys (Rule.delta r)).
Proof.
  unfold RuleBaseModel.run. rewrite check_input_spec. intro H.
  destruct (forallb _ _); simpl in H; [|injection H as <-; now left].
  destruct (list_comp _ (RuleBaseModel.rules m)) as [vs|e'] eqn:E;
    simpl in H; [discriminate|]. injection H as ->.
  apply list_comp_Raise_inv in E as (pre & r & post & Hr & _ & He).
  apply get_matching_degree_Raise_inv in He
    as [->|[->|[->|[->|(k & -> & Hk & Hnone)]]]].
  - now left.
  - right. now left.
  - right. right. now left.
  - right. right. right. now left.
  - right. right. right. right. exists r, k. repeat split; auto.
    + rewrite Hr. apply in_or_app. right. now left.
    + intro Hin. apply lookup_In_keys in Hin as [w Hw]. congruence.
Qed.

Lemma run_exceptions_witness :
  OverflowError = AssertionError None
  \/ OverflowError = ZeroDivisionError
  \/ OverflowError = OverflowError
  \/ OverflowError = TypeError
  \/ exists r k,
       In r (RuleBaseModel.rules
               (RuleBaseModel.Build [PyStr "temp"] Scenario.A Scenario.D
                                    PyNone [Examples.R_huge]))
       /\ OverflowError = KeyError (PyStr k)
       /\ In k (keys (Rule.A_values r))
       /\ ~ In k (keys (Rule.delta r)).
Proof.
  apply (run_exceptions
           (RuleBaseModel.Build [PyStr "temp"] Scenario.A Scenario.D
                                PyNone [Examples.R_huge])
           Scenario.X_pair).
  vm_compute. reflexivity.
Defined.
